(** * Loan_Api: risk scoring, auto-decision and application workflow

    A shallow embedding of [applications/services.py],
    [applications/views.py], [applications/models.py] and
    [applications/serializers.py].

    Conventions of the embedding.
    - Python strings are [string] (ASCII; [.encode()] is one byte per char).
    - JSON amounts are Python [int]s, modelled as [Z].
    - Python floats are IEEE binary64, modelled with [SpecFloat] at
      precision 53 and exponent bound 1024 (round to nearest, ties to even).
    - A Python computation returns a [py] value: a result, a raised
      exception, or [Stuck] when an unbounded loop runs past the fuel the
      model gives it. *)

From Stdlib Require Import ZArith List String Ascii Bool Lia.
From Stdlib Require Import QArith Qround.
From Stdlib Require Import Floats.SpecFloat.
Import ListNotations.
Open Scope string_scope.
Open Scope list_scope.
Open Scope Z_scope.

(* ------------------------------------------------------------------ *)
(** ** Python runtime: exceptions and results *)

Inductive exn :=
  | KeyError
  | TypeError               (** e.g. subscripting a list, [None] or a str with a str key *)
  | NameError               (** an unbound global name *)
  | OverflowError
  | ValueError
  | DatabaseError           (** any failure raised by the ORM / database *)
  | Timeout                 (** requests.exceptions.Timeout *)
  | ConnectionError         (** requests.exceptions.ConnectionError *)
  | HTTPError               (** raised by [response.raise_for_status()] *)
  | JSONDecodeError         (** raised by [response.json()] (requests >= 2.27) *)
  | Http404                 (** django.http.Http404, from [get_object] *)
  | ValidationError.        (** django.core.exceptions.ValidationError, from a
                                field's [to_python] *)

(** [isinstance(e, requests.exceptions.RequestException)]. *)
Definition is_request_exception (e : exn) : bool :=
  match e with
  | Timeout | ConnectionError | HTTPError | JSONDecodeError => true
  | _ => false
  end.

Inductive py (A : Type) :=
  | Ret (a : A)
  | Raise (e : exn)
  | Stuck.
Arguments Ret {A} a.
Arguments Raise {A} e.
Arguments Stuck {A}.

Definition py_bind {A B} (m : py A) (f : A -> py B) : py B :=
  match m with
  | Ret a => f a
  | Raise e => Raise e
  | Stuck => Stuck
  end.

Notation "'let*' x := m 'in' k" := (py_bind m (fun x => k))
  (at level 200, x name, m at level 100, k at level 200).

(* ------------------------------------------------------------------ *)
(** ** 32-bit words *)

Definition mask32 : Z := 4294967295.
Definition u32 (x : Z) : Z := Z.land x mask32.
Definition not32 (x : Z) : Z := Z.lxor x mask32.
Definition rotl32 (x : Z) (n : Z) : Z :=
  u32 (Z.lor (Z.shiftl x n) (Z.shiftr x (32 - n))).

Fixpoint nthZ (l : list Z) (i : nat) : Z :=
  match l, i with
  | [], _ => 0
  | x :: _, O => x
  | _ :: r, S i => nthZ r i
  end.

Fixpoint set_nth (l : list Z) (i : nat) (v : Z) : list Z :=
  match l, i with
  | [], _ => []
  | _ :: r, O => v :: r
  | x :: r, S i => x :: set_nth r i v
  end.

(* ------------------------------------------------------------------ *)
(** ** [hashlib.md5] (RFC 1321) *)

Module Md5.

Definition K : list Z :=
  [3614090360; 3905402710; 606105819; 3250441966; 4118548399; 1200080426;
   2821735955; 4249261313; 1770035416; 2336552879; 4294925233; 2304563134;
   1804603682; 4254626195; 2792965006; 1236535329; 4129170786; 3225465664;
   643717713; 3921069994; 3593408605; 38016083; 3634488961; 3889429448;
   568446438; 3275163606; 4107603335; 1163531501; 2850285829; 4243563512;
   1735328473; 2368359562; 4294588738; 2272392833; 1839030562; 4259657740;
   2763975236; 1272893353; 4139469664; 3200236656; 681279174; 3936430074;
   3572445317; 76029189; 3654602809; 3873151461; 530742520; 3299628645;
   4096336452; 1126891415; 2878612391; 4237533241; 1700485571; 2399980690;
   4293915773; 2240044497; 1873313359; 4264355552; 2734768916; 1309151649;
   4149444226; 3174756917; 718787259; 3951481745].

Definition shifts (i : nat) : Z :=
  let r := Nat.modulo i 4 in
  match Nat.div i 16 with
  | O => nthZ [7; 12; 17; 22] r
  | 1%nat => nthZ [5; 9; 14; 20] r
  | 2%nat => nthZ [4; 11; 16; 23] r
  | _ => nthZ [6; 10; 15; 21] r
  end.

(** Little-endian bytes of a [n]-byte word. *)
Fixpoint le_bytes (n : nat) (x : Z) : list Z :=
  match n with
  | O => []
  | S n => Z.land x 255 :: le_bytes n (Z.shiftr x 8)
  end.

Fixpoint le_word (bs : list Z) : Z :=
  match bs with
  | [] => 0
  | b :: r => Z.lor b (Z.shiftl (le_word r) 8)
  end.

Definition pad (msg : list Z) : list Z :=
  let len := List.length msg in
  let zeros := Nat.modulo (55 + 64 - Nat.modulo len 64) 64 in
  (msg ++ [128] ++ repeat 0 zeros ++ le_bytes 8 (Z.of_nat len * 8))%list.

Fixpoint words16 (n : nat) (bs : list Z) : list Z :=
  match n with
  | O => []
  | S n => le_word (firstn 4 bs) :: words16 n (skipn 4 bs)
  end.

Definition round (m : list Z) (i : nat) (st : Z * Z * Z * Z) : Z * Z * Z * Z :=
  let '(a, b, c, d) := st in
  let '(f, g) :=
    match Nat.div i 16 with
    | O => (Z.lor (Z.land b c) (Z.land (not32 b) d), i)
    | 1%nat => (Z.lor (Z.land d b) (Z.land (not32 d) c), Nat.modulo (5 * i + 1) 16)
    | 2%nat => (Z.lxor b (Z.lxor c d), Nat.modulo (3 * i + 5) 16)
    | _ => (Z.lxor c (Z.lor b (not32 d)), Nat.modulo (7 * i) 16)
    end in
  let f' := u32 (f + a + nthZ K i + nthZ m g) in
  (d, u32 (b + rotl32 f' (shifts i)), b, c).

Definition block (st : Z * Z * Z * Z) (m : list Z) : Z * Z * Z * Z :=
  let '(a', b', c', d') := fold_left (fun s i => round m i s) (seq 0 64) st in
  let '(a, b, c, d) := st in
  (u32 (a + a'), u32 (b + b'), u32 (c + c'), u32 (d + d')).

Fixpoint blocks (fuel : nat) (st : Z * Z * Z * Z) (bs : list Z) : Z * Z * Z * Z :=
  match fuel with
  | O => st
  | S fuel =>
      match bs with
      | [] => st
      | _ => blocks fuel (block st (words16 16 bs)) (skipn 64 bs)
      end
  end.

(** The 16-byte digest. *)
Definition digest (msg : list Z) : list Z :=
  let p := pad msg in
  let '(a, b, c, d) :=
    blocks (List.length p) (1732584193, 4023233417, 2562383102, 271733878) p in
  (le_bytes 4 a ++ le_bytes 4 b ++ le_bytes 4 c ++ le_bytes 4 d)%list.

End Md5.

Definition bytes_of_string (s : string) : list Z :=
  map (fun c => Z.of_nat (nat_of_ascii c)) (list_ascii_of_string s).

(** [int(hashlib.md5(s.encode()).hexdigest()[:8], 16)]: the first four
    digest bytes read big-endian. *)
Definition md5_prefix_seed (s : string) : Z :=
  match Md5.digest (bytes_of_string s) with
  | b0 :: b1 :: b2 :: b3 :: _ =>
      Z.lor (Z.shiftl b0 24) (Z.lor (Z.shiftl b1 16) (Z.lor (Z.shiftl b2 8) b3))
  | _ => 0
  end.

(* ------------------------------------------------------------------ *)
(** ** [random]: CPython's Mersenne Twister (MT19937) *)

Module MT.

Definition N : nat := 624.
Definition M : nat := 397.

(** [init_genrand(s)]. *)
Fixpoint init_genrand_from (prev : Z) (i : nat) (fuel : nat) : list Z :=
  match fuel with
  | O => []
  | S fuel =>
      let v := u32 (1812433253 * Z.lxor prev (Z.shiftr prev 30) + Z.of_nat i) in
      v :: init_genrand_from v (S i) fuel
  end.

Definition init_genrand (s : Z) : list Z :=
  u32 s :: init_genrand_from (u32 s) 1 (N - 1).

(** The first loop of [init_by_array]. *)
Fixpoint init_by_array_1 (key : list Z) (k : nat) (mt : list Z) (i j : nat)
  : list Z * nat :=
  match k with
  | O => (mt, i)
  | S k =>
      let p := nthZ mt (i - 1) in
      let v := u32 (Z.lxor (nthZ mt i) (Z.lxor p (Z.shiftr p 30) * 1664525)
                    + nthZ key j + Z.of_nat j) in
      let mt := set_nth mt i v in
      let i := S i in
      let j := S j in
      let '(mt, i) :=
        if Nat.leb N i then (set_nth mt 0 (nthZ mt (N - 1)), 1%nat) else (mt, i) in
      let j := if Nat.leb (List.length key) j then O else j in
      init_by_array_1 key k mt i j
  end.

(** The second loop of [init_by_array]. *)
Fixpoint init_by_array_2 (k : nat) (mt : list Z) (i : nat) : list Z :=
  match k with
  | O => mt
  | S k =>
      let p := nthZ mt (i - 1) in
      let v := u32 (Z.lxor (nthZ mt i) (Z.lxor p (Z.shiftr p 30) * 1566083941)
                    - Z.of_nat i) in
      let mt := set_nth mt i v in
      let i := S i in
      let '(mt, i) :=
        if Nat.leb N i then (set_nth mt 0 (nthZ mt (N - 1)), 1%nat) else (mt, i) in
      init_by_array_2 k mt i
  end.

Definition init_by_array (key : list Z) : list Z :=
  let mt := init_genrand 19650218 in
  let '(mt, i) := init_by_array_1 key (Nat.max N (List.length key)) mt 1 0 in
  let mt := init_by_array_2 (N - 1) mt i in
  set_nth mt 0 2147483648.

(** The generator state: the 624 words and the index [mti]. *)
Record state := mkState { mt : list Z; mti : nat }.

(** [random.seed(a)] for an [int] [a]: the key is [abs(a)] cut into
    32-bit words, least significant first ([[0]] for [a = 0]). *)
Fixpoint key_words (fuel : nat) (n : Z) : list Z :=
  match fuel with
  | O => []
  | S fuel => if n <=? 0 then [] else u32 n :: key_words fuel (Z.shiftr n 32)
  end.

Definition seed (a : Z) : state :=
  let n := Z.abs a in
  let key := if n =? 0 then [0] else key_words (Z.to_nat (Z.log2 n / 32 + 1)) n in
  mkState (init_by_array key) N.

Definition twist_word (mt : list Z) (kk : nat) : list Z :=
  let y := Z.lor (Z.land (nthZ mt kk) 2147483648)
                 (Z.land (nthZ mt (Nat.modulo (kk + 1) N)) 2147483647) in
  let mag := if Z.odd y then 2567483615 else 0 in
  set_nth mt kk (Z.lxor (nthZ mt (Nat.modulo (kk + M) N))
                        (Z.lxor (Z.shiftr y 1) mag)).

(** Regenerating the 624 words; index [kk + M] wraps round to the words
    already regenerated, as in the C loops. *)
Definition twist (mt : list Z) : list Z :=
  fold_left twist_word (seq 0 N) mt.

Definition temper (y : Z) : Z :=
  let y := Z.lxor y (Z.shiftr y 11) in
  let y := Z.lxor y (Z.land (u32 (Z.shiftl y 7)) 2636928640) in
  let y := Z.lxor y (Z.land (u32 (Z.shiftl y 15)) 4022730752) in
  Z.lxor y (Z.shiftr y 18).

(** [genrand_uint32]. *)
Definition genrand_uint32 (st : state) : Z * state :=
  let st := if Nat.leb N (mti st) then mkState (twist (mt st)) 0 else st in
  (temper (nthZ (mt st) (mti st)), mkState (mt st) (S (mti st))).

(** [getrandbits(k)] for [0 < k <= 32]. *)
Definition getrandbits (k : Z) (st : state) : Z * state :=
  let '(r, st) := genrand_uint32 st in (Z.shiftr r (32 - k), st).

(** [_randbelow_with_getrandbits(n)]: draw [n.bit_length()] bits until the
    draw is below [n]. The loop is unbounded in Python; the model runs it
    for at most [fuel] draws. *)
Fixpoint randbelow_loop (fuel : nat) (n k : Z) (st : state) : py (Z * state) :=
  match fuel with
  | O => Stuck
  | S fuel =>
      let '(r, st) := getrandbits k st in
      if r <? n then Ret (r, st) else randbelow_loop fuel n k st
  end.

Definition randbelow_fuel : nat := 10000.

Definition randbelow (n : Z) (st : state) : py (Z * state) :=
  randbelow_loop randbelow_fuel n (Z.log2 n + 1) st.

(** [randint(a, b)] = [randrange(a, b + 1)] = [a + _randbelow(b - a + 1)]. *)
Definition randint (a b : Z) (st : state) : py (Z * state) :=
  let* p := randbelow (b - a + 1) st in
  let '(r, st) := p in Ret (a + r, st).

End MT.

Definition randint_after_seed (s a b : Z) : py Z :=
  let* p := MT.randint a b (MT.seed s) in Ret (fst p).

(* ------------------------------------------------------------------ *)
(** ** Python numbers: [int] and binary64 [float] *)

Definition fl := spec_float.
Definition fadd (x y : fl) : fl := SFadd 53 1024 x y.
Definition fmul (x y : fl) : fl := SFmul 53 1024 x y.
Definition fdiv (x y : fl) : fl := SFdiv 53 1024 x y.
Definition fltb (x y : fl) : bool := SFltb x y.

(** [float(n)] for an [int] [n]: rounded to nearest even, [OverflowError]
    when out of range. *)
Definition float_of_int (n : Z) : py fl :=
  match binary_normalize 53 1024 n 0 false with
  | S754_infinity _ => Raise OverflowError
  | f => Ret f
  end.

(** [round(x)] for a float: nearest integer, ties to even. *)
Definition round_float (x : fl) : py Z :=
  match x with
  | S754_nan => Raise ValueError
  | S754_infinity _ => Raise OverflowError
  | S754_zero _ => Ret 0
  | S754_finite s m e =>
      let v :=
        if 0 <=? e then Z.pos m * 2 ^ e
        else
          let q := Z.shiftr (Z.pos m) (- e) in
          let r := Z.pos m - q * 2 ^ (- e) in
          let half := 2 ^ (- e - 1) in
          if (half <? r) || ((r =? half) && Z.odd q) then q + 1 else q in
      Ret (if s then - v else v)
  end.

(** A Python number: [int] or [float]. *)
Inductive num := PInt (z : Z) | PFloat (f : fl).

Definition to_float (x : num) : py fl :=
  match x with PInt z => float_of_int z | PFloat f => Ret f end.

(** [x + y]: [int + int] is an [int], otherwise the [int] is converted. *)
Definition num_add (x y : num) : py num :=
  match x, y with
  | PInt a, PInt b => Ret (PInt (a + b))
  | _, _ => let* a := to_float x in let* b := to_float y in Ret (PFloat (fadd a b))
  end.

Definition num_ltb (x y : num) : py bool :=
  match x, y with
  | PInt a, PInt b => Ret (a <? b)
  | _, _ => let* a := to_float x in let* b := to_float y in Ret (fltb a b)
  end.

(** [min(a, b)]: [b] replaces [a] only when [b < a]. *)
Definition num_min (a b : num) : py num :=
  let* lt := num_ltb b a in Ret (if lt then b else a).

(** [round(x)] with no digits. *)
Definition num_round (x : num) : py Z :=
  match x with PInt z => Ret z | PFloat f => round_float f end.

(* ------------------------------------------------------------------ *)
(** ** String helpers *)

(** [str.lower()] on ASCII. *)
Definition lower_ascii (c : ascii) : ascii :=
  let n := nat_of_ascii c in
  if (65 <=? n)%nat && (n <=? 90)%nat then ascii_of_nat (n + 32) else c.

Definition lower (s : string) : string :=
  string_of_list_ascii (map lower_ascii (list_ascii_of_string s)).

(** [sub in s]. *)
Fixpoint contains (sub s : string) : bool :=
  if String.prefix sub s then true
  else match s with
       | EmptyString => false
       | String _ r => contains sub r
       end.

(** ASCII whitespace as [str.split()] sees it. *)
Definition is_space (c : ascii) : bool :=
  let n := nat_of_ascii c in
  ((9 <=? n)%nat && (n <=? 13)%nat) || ((28 <=? n)%nat && (n <=? 32)%nat).

(** [len(s.split())]: the number of maximal runs of non-whitespace. *)
Fixpoint split_count_aux (in_word : bool) (cs : list ascii) : nat :=
  match cs with
  | [] => O
  | c :: r =>
      if is_space c then split_count_aux false r
      else if in_word then split_count_aux true r
      else S (split_count_aux true r)
  end.

Definition split_count (s : string) : nat :=
  split_count_aux false (list_ascii_of_string s).

(** [str(n)] for an [int]. *)
Fixpoint digits_rev (fuel : nat) (n : Z) : list ascii :=
  match fuel with
  | O => []
  | S fuel =>
      let d := ascii_of_nat (48 + Z.to_nat (n mod 10)) in
      if n <? 10 then [d] else d :: digits_rev fuel (n / 10)
  end.

Definition str_of_Z (n : Z) : string :=
  let ds := string_of_list_ascii
              (rev (digits_rev (S (Z.to_nat (Z.log2 (Z.abs n)))) (Z.abs n))) in
  if n <? 0 then String "-" ds else ds.

(* ------------------------------------------------------------------ *)
(** ** [RiskScoringService] (services.py) *)

(** The dict [{'name': ..., 'email': ..., 'phone': ...}] passed to the
    service. *)
Record applicant_data := mkData { d_name : string; d_email : string; d_phone : string }.

(** [django.conf.settings] as the service reads it; a missing
    [USE_REAL_RISK_API] is [False]. *)
Record settings := mkSettings { DEBUG : bool; USE_REAL_RISK_API : bool }.

Definition free_mail_domains : list string := ["gmail.com"; "yahoo.com"; "hotmail.com"].
Definition institutional_domains : list string := [".edu"; ".gov"; ".org"].

Definition any_in (doms : list string) (email : string) : bool :=
  existsb (fun d => contains d email) doms.

(** [input_string] and [deterministic_seed]. *)
Definition mock_seed (email : string) (loan_amount : Z) : Z :=
  md5_prefix_seed (email ++ str_of_Z loan_amount).

(** [random.seed(deterministic_seed); random.randint(-12, 12)]. *)
Definition random_factor (email : string) (loan_amount : Z) : py Z :=
  randint_after_seed (mock_seed email loan_amount) (-12) 12.

(** [_calculate_mock_score]. *)
Definition _calculate_mock_score (applicant : applicant_data) (loan_amount : Z) : py Z :=
  let base_score := PInt 50 in
  (* Factor 1 *)
  let* amt := float_of_int loan_amount in
  let* ten_k := float_of_int 10000 in
  let* twelve := float_of_int 12 in
  let* amount_risk := num_min (PInt 25) (PFloat (fmul (fdiv amt ten_k) twelve)) in
  let* base_score := num_add base_score amount_risk in
  (* Factor 2 *)
  let email := lower (d_email applicant) in
  let* base_score :=
    if String.eqb email "" then Ret base_score
    else if any_in free_mail_domains email then num_add base_score (PInt 5)
    else if any_in institutional_domains email then num_add base_score (PInt (-8))
    else Ret base_score in
  (* Factor 3 *)
  let name := d_name applicant in
  let* base_score :=
    if negb (String.eqb name "") && (2 <=? split_count name)%nat
    then num_add base_score (PInt (-4)) else Ret base_score in
  (* Factor 4 *)
  let* r := random_factor (d_email applicant) loan_amount in
  let* base_score := num_add base_score (PInt r) in
  let* rounded := num_round base_score in
  Ret (Z.max 0 (Z.min 100 rounded)).

(** [_calculate_fallback_score]. *)
Definition _calculate_fallback_score (applicant : applicant_data) (loan_amount : Z) : py Z :=
  Ret 50.

(** A response body that parses as JSON, as [response.json()] returns it:
    an object (a dict; the service's values, the score among them, are
    integers), or any other JSON value, which [response['score']] cannot
    subscript with a string key. *)
Inductive json_body :=
  | JObject (fields : list (string * Z))
  | JArray                  (** a list; its items are not read *)
  | JNull                   (** [None] *)
  | JString (s : string)
  | JNumber                 (** an int or float; its value is not read *)
  | JBool (b : bool).

(** What [requests.post(...)] does: a network-layer failure, or a response
    with a status code and a body that is JSON ([Some]) or not JSON at all
    ([None]). *)
Inductive http_outcome :=
  | NetTimeout
  | NetConnectionError
  | HttpResponse (status_code : Z) (body : option json_body).

(** [response.raise_for_status()] raises for 4xx and 5xx codes. *)
Definition raises_for_status (code : Z) : bool := (400 <=? code) && (code <? 600).

(** [_call_external_api]: [float(loan_amount)] is computed for the
    request body before the request is sent. *)
Definition _call_external_api (applicant : applicant_data) (loan_amount : Z)
    (http : http_outcome) : py json_body :=
  let* _ := float_of_int loan_amount in
  match http with
  | NetTimeout => Raise Timeout
  | NetConnectionError => Raise ConnectionError
  | HttpResponse code body =>
      if raises_for_status code then Raise HTTPError
      else match body with
           | None => Raise JSONDecodeError
           | Some obj => Ret obj
           end
  end.

Fixpoint lookup (k : string) (obj : list (string * Z)) : option Z :=
  match obj with
  | [] => None
  | (k', v) :: r => if String.eqb k k' then Some v else lookup k r
  end.

Definition mock_mode (cfg : settings) : bool := DEBUG cfg && negb (USE_REAL_RISK_API cfg).

(** [response['score']]: a dict lookup, [KeyError] for a missing key;
    every other JSON value raises [TypeError] when subscripted with a str. *)
Definition subscript_score (response : json_body) : py Z :=
  match response with
  | JObject obj => match lookup "score" obj with Some s => Ret s | None => Raise KeyError end
  | JArray | JNull | JString _ | JNumber | JBool _ => Raise TypeError
  end.

(** [get_risk_score]. *)
Definition get_risk_score (cfg : settings) (http : http_outcome)
    (applicant : applicant_data) (loan_amount : Z) : py Z :=
  if mock_mode cfg then _calculate_mock_score applicant loan_amount
  else
    match _call_external_api applicant loan_amount http with
    | Ret response => subscript_score response
    | Raise e =>
        if is_request_exception e then _calculate_fallback_score applicant loan_amount
        else Raise e
    | Stuck => Stuck
    end.

(* ------------------------------------------------------------------ *)
(** ** Models (models.py) and the database *)

Record Applicant := mkApplicant {
  a_id : Z; a_name : string; a_email : string; a_phone : string;
  a_created_at : Z; a_updated_at : Z }.

Inductive status := STATUS_PENDING | STATUS_APPROVED | STATUS_REJECTED | STATUS_MANUAL_REVIEW.

Definition status_str (s : status) : string :=
  match s with
  | STATUS_PENDING => "pending"
  | STATUS_APPROVED => "approved"
  | STATUS_REJECTED => "rejected"
  | STATUS_MANUAL_REVIEW => "manual_review"
  end.

Definition STATUS_CHOICES : list status :=
  [STATUS_PENDING; STATUS_APPROVED; STATUS_REJECTED; STATUS_MANUAL_REVIEW].

Definition status_eqb (s t : status) : bool := String.eqb (status_str s) (status_str t).

Record LoanApplication := mkLoan {
  l_id : Z; l_applicant : Z; l_amount : Z; l_risk_score : option Z;
  l_status : status; l_external_reference : option string;
  l_created_at : Z; l_updated_at : Z }.

(** The two tables and the current instant ([timezone.now()]). Primary
    keys are allocated one above the largest in use. *)
Record db := mkDb { applicants : list Applicant; loans : list LoanApplication; now : Z }.

Definition next_id (ids : list Z) : Z := fold_right Z.max 0 ids + 1.

(** Which ORM calls of [create] fail (an [IntegrityError], [DataError],
    lost connection, ...). *)
Record faults := mkFaults {
  f_get_or_create : bool; f_applicant_save : bool;
  f_loan_create : bool; f_loan_save : bool }.

Definition no_faults : faults := mkFaults false false false false.

(** Everything [create] depends on besides the database and the request. *)
Record env := mkEnv { e_settings : settings; e_http : http_outcome; e_faults : faults }.

(** A state-and-exception monad over the database. *)
Definition M (A : Type) : Type := db -> py A * db.

Definition mret {A} (a : A) : M A := fun s => (Ret a, s).
Definition mraise {A} (e : exn) : M A := fun s => (Raise e, s).
Definition mlift {A} (m : py A) : M A := fun s => (m, s).
Definition mbind {A B} (m : M A) (f : A -> M B) : M B :=
  fun s => match m s with
           | (Ret a, s') => f a s'
           | (Raise e, s') => (Raise e, s')
           | (Stuck, s') => (Stuck, s')
           end.

Notation "'do' x <- m ; k" := (mbind m (fun x => k))
  (at level 200, x name, m at level 100, k at level 200).

Definition find_applicant_by_email (email : string) (s : db) : option Applicant :=
  find (fun a => String.eqb (a_email a) email) (applicants s).

(** [Applicant.objects.get_or_create(email=..., defaults={...})]. *)
Definition get_or_create (fail : bool) (email name phone : string) : M (Applicant * bool) :=
  fun s =>
    if fail then (Raise DatabaseError, s) else
    match find_applicant_by_email email s with
    | Some a => (Ret (a, false), s)
    | None =>
        let a := mkApplicant (next_id (map a_id (applicants s))) name email phone
                   (now s) (now s) in
        (Ret (a, true), mkDb (applicants s ++ [a]) (loans s) (now s))
    end.

Inductive applicant_field := F_name | F_phone.

(** The row written by [applicant.save(update_fields=fields)]: only the
    listed columns are taken from the instance ([updated_at] is not listed,
    so it is not written). *)
Definition write_fields (fields : list applicant_field) (inst row : Applicant) : Applicant :=
  mkApplicant (a_id row)
    (if existsb (fun f => match f with F_name => true | _ => false end) fields
     then a_name inst else a_name row)
    (a_email row)
    (if existsb (fun f => match f with F_phone => true | _ => false end) fields
     then a_phone inst else a_phone row)
    (a_created_at row) (a_updated_at row).

Definition applicant_save_fields (fail : bool) (fields : list applicant_field)
    (inst : Applicant) : M unit :=
  fun s =>
    if fail then (Raise DatabaseError, s) else
    (Ret tt, mkDb (map (fun r => if a_id r =? a_id inst then write_fields fields inst r else r)
                       (applicants s)) (loans s) (now s)).

(** [LoanApplication.objects.create(applicant=..., amount=..., status=...)];
    model validators ([MinValueValidator(100)]) are not run by [create]. *)
Definition loan_create (fail : bool) (applicant : Applicant) (amount : Z) (st : status)
  : M LoanApplication :=
  fun s =>
    if fail then (Raise DatabaseError, s) else
    let l := mkLoan (next_id (map l_id (loans s))) (a_id applicant) amount None st None
               (now s) (now s) in
    (Ret l, mkDb (applicants s) (loans s ++ [l]) (now s)).

(** [application.save()]: every column written, [updated_at] refreshed. *)
Definition loan_save (fail : bool) (l : LoanApplication) : M LoanApplication :=
  fun s =>
    if fail then (Raise DatabaseError, s) else
    let l' := mkLoan (l_id l) (l_applicant l) (l_amount l) (l_risk_score l) (l_status l)
                (l_external_reference l) (l_created_at l) (now s) in
    (Ret l', mkDb (applicants s)
                  (map (fun r => if l_id r =? l_id l then l' else r) (loans s)) (now s)).

(** [@transaction.atomic]: an exception leaving the block rolls the
    database back to its state on entry. *)
Definition atomic {A} (m : M A) : M A :=
  fun s => match m s with
           | (Ret a, s') => (Ret a, s')
           | (r, _) => (r, s)
           end.

(* ------------------------------------------------------------------ *)
(** ** [LoanApplicationViewSet.create] (views.py) *)

(** [request.data]: the [applicant] dict ([{}] when missing) and the
    [amount] ([None] when missing). *)
Record create_request := mkCreateRequest {
  r_applicant : list (string * string); r_amount : option Z }.

Fixpoint dict_get (k : string) (d : list (string * string)) : option string :=
  match d with
  | [] => None
  | (k', v) :: r => if String.eqb k k' then Some v else dict_get k r
  end.

Definition dict_get_default (k dflt : string) (d : list (string * string)) : string :=
  match dict_get k d with Some v => v | None => dflt end.

(** Python truthiness of the two request values. *)
Definition dict_falsy (d : list (string * string)) : bool :=
  match d with [] => true | _ => false end.
Definition amount_falsy (a : option Z) : bool :=
  match a with None => true | Some z => z =? 0 end.
Definition str_falsy (s : option string) : bool :=
  match s with None => true | Some v => String.eqb v "" end.

(** The response objects [create] builds. *)
Inductive create_response :=
  | Created (application : LoanApplication)       (** 201 *)
  | BadRequest (error : string)                   (** 400 *)
  | InternalServerError (error : string).         (** 500 *)

(** The auto-decision of lines 113-118. *)
Definition decide (risk_score : Z) : status :=
  if risk_score <? 30 then STATUS_APPROVED
  else if 70 <? risk_score then STATUS_REJECTED
  else STATUS_MANUAL_REVIEW.

(** Lines 82-89: the in-memory applicant and the [update_fields] list. *)
Definition update_applicant (applicant_data : list (string * string)) (a : Applicant)
  : Applicant * list applicant_field :=
  let '(a, fs) :=
    match dict_get "name" applicant_data with
    | Some n => if negb (String.eqb n (a_name a))
                then (mkApplicant (a_id a) n (a_email a) (a_phone a)
                        (a_created_at a) (a_updated_at a), [F_name])
                else (a, [])
    | None => (a, [])
    end in
  match dict_get "phone" applicant_data with
  | Some p => if negb (String.eqb p (a_phone a))
              then (mkApplicant (a_id a) (a_name a) (a_email a) p
                      (a_created_at a) (a_updated_at a), fs ++ [F_phone])
              else (a, fs)
  | None => (a, fs)
  end.

Definition set_score_and_status (l : LoanApplication) (risk_score : Z) : LoanApplication :=
  mkLoan (l_id l) (l_applicant l) (l_amount l) (Some risk_score) (decide risk_score)
    (l_external_reference l) (l_created_at l) (l_updated_at l).

(** The body of the [try] block, lines 72-123. *)
Definition create_try (ev : env) (applicant_data : list (string * string))
    (email : string) (amount : Z) : M create_response :=
  let fl := e_faults ev in
  do p <- get_or_create (f_get_or_create fl) email
            (dict_get_default "name" "" applicant_data)
            (dict_get_default "phone" "" applicant_data);
  let '(applicant, created) := p in
  do applicant <-
    (if created then mret applicant
     else
       let '(applicant, update_fields) := update_applicant applicant_data applicant in
       match update_fields with
       | [] => mret applicant
       | _ => do _ <- applicant_save_fields (f_applicant_save fl) update_fields applicant;
              mret applicant
       end);
  do application <- loan_create (f_loan_create fl) applicant amount STATUS_PENDING;
  do risk_score <- mlift (get_risk_score (e_settings ev) (e_http ev)
                            (mkData (a_name applicant) (a_email applicant) (a_phone applicant))
                            amount);
  let application := set_score_and_status application risk_score in
  do application <- loan_save (f_loan_save fl) application;
  mret (Created application).

(** [logger.error(...)]: [logger] is not bound in views.py, so evaluating
    it raises [NameError]. *)
Definition logger_error : M unit := mraise NameError.

Definition try_except {A} (m : M A) (handler : exn -> M A) : M A :=
  fun s => match m s with
           | (Raise e, s') => handler e s'
           | r => r
           end.

(** Steps 2-6 of the workflow, as the [try] block runs them. *)
Definition create_steps (ev : env) (req : create_request) : M create_response :=
  create_try ev (r_applicant req) (dict_get_default "email" "" (r_applicant req))
    (match r_amount req with Some z => z | None => 0 end).

(** The [except Exception] handler, lines 125-130. *)
Definition create_handler (e : exn) : M create_response :=
  do _ <- logger_error;
  mret (InternalServerError "Internal server error").

(** [create]: the validation of lines 58-69, then the [try] block. *)
Definition create (ev : env) (req : create_request) : M create_response :=
  atomic (
    let applicant_data := r_applicant req in
    let amount := r_amount req in
    if dict_falsy applicant_data || amount_falsy amount then
      mret (BadRequest "Applicant data and amount are required")
    else if str_falsy (dict_get "email" applicant_data) then
      mret (BadRequest "Email is required in applicant data")
    else
      try_except (create_steps ev req) create_handler).

(** The validation of step 1. *)
Definition create_valid (req : create_request) : bool :=
  negb (dict_falsy (r_applicant req) || amount_falsy (r_amount req))
  && negb (str_falsy (dict_get "email" (r_applicant req))).

(** What the caller receives as an internal error: the view's own 500
    response, or an exception leaving the view, which Django answers with
    a 500. *)
Definition internal_error (r : py create_response) : bool :=
  match r with
  | Ret (InternalServerError _) => true
  | Raise _ => true
  | _ => false
  end.

(* ------------------------------------------------------------------ *)
(** ** [LoanApplicationViewSet.update_status] (views.py) *)

(** A nonempty [start_date] or [end_date] query parameter, as the
    [created_at] lookup reads it: [DateTimeField.to_python] either parses
    the string as a datetime or a date, giving an instant, or raises
    [ValidationError] (bad format, or no such date). An absent or empty
    parameter is falsy and skipped by [if start_date:], so it is [None] in
    [status_request]. *)
Inductive date_param :=
  | DateInstant (t : Z)
  | DateInvalid.

(** A PATCH request: the query parameters [get_queryset] reads ([status],
    [start_date], [end_date]), and [request.data.get('status')]. *)
Record status_request := mkStatusRequest {
  q_status : option string; q_start_date : option date_param; q_end_date : option date_param;
  data_status : option string }.

(** [queryset.filter(created_at__gte=d)] (or [__lte]): the lookup converts
    its argument when the filter is built, so an unparsable date raises at
    once. *)
Definition date_filter (p : date_param) (keep : Z -> Z -> bool) (queryset : list LoanApplication)
  : py (list LoanApplication) :=
  match p with
  | DateInstant d => Ret (filter (fun l => keep d (l_created_at l)) queryset)
  | DateInvalid => Raise ValidationError
  end.

(** [get_queryset]: the filters taken from the query string, in order. *)
Definition get_queryset (req : status_request) (s : db) : py (list LoanApplication) :=
  let queryset := loans s in
  let queryset :=
    match q_status req with
    | Some status_filter =>
        if String.eqb status_filter "" then queryset
        else filter (fun l => String.eqb (status_str (l_status l)) status_filter) queryset
    | None => queryset
    end in
  let* queryset :=
    match q_start_date req with
    | Some start_date => date_filter start_date (fun d t => d <=? t) queryset
    | None => Ret queryset
    end in
  match q_end_date req with
  | Some end_date => date_filter end_date (fun d t => t <=? d) queryset
  | None => Ret queryset
  end.

(** [get_object]: the object with the given primary key in the filtered
    queryset, or [Http404]; an error of [get_queryset] propagates. *)
Definition get_object (req : status_request) (pk : Z) (s : db) : py LoanApplication :=
  let* queryset := get_queryset req s in
  match find (fun l => l_id l =? pk) queryset with
  | Some l => Ret l
  | None => Raise Http404
  end.

(** [LoanApplicationStatusSerializer]: [status] is a [ChoiceField] over
    [STATUS_CHOICES], not required (the model field has a default). *)
Definition status_of_string (v : string) : option status :=
  find (fun c => String.eqb (status_str c) v) STATUS_CHOICES.

Inductive status_validation := Valid (new_status : option status) | Invalid.

Definition validate_status (data : option string) : status_validation :=
  match data with
  | None => Valid None
  | Some v => match status_of_string v with Some c => Valid (Some c) | None => Invalid end
  end.

(** [serializer.save()] = [update]: set the validated attributes, then
    [instance.save()]. *)
Definition apply_validated (new_status : option status) (l : LoanApplication) : LoanApplication :=
  match new_status with
  | Some c => mkLoan (l_id l) (l_applicant l) (l_amount l) (l_risk_score l) c
                (l_external_reference l) (l_created_at l) (l_updated_at l)
  | None => l
  end.

Inductive status_response :=
  | StatusOk (status_field : string)           (** 200, [serializer.data] *)
  | StatusBadRequest (error : string)          (** 400 *)
  | StatusNotFound.                            (** 404 *)

Definition update_status_view (req : status_request) (pk : Z) : M status_response :=
  do application <- (fun s => (get_object req pk s, s));
  if negb (status_eqb (l_status application) STATUS_MANUAL_REVIEW) then
    mret (StatusBadRequest "Only manual review applications can be updated")
  else
    match validate_status (data_status req) with
    | Valid v =>
        do saved <- loan_save false (apply_validated v application);
        mret (StatusOk (status_str (l_status saved)))
    | Invalid => mret (StatusBadRequest "is not a valid choice")
    end.

(** DRF's [handle_exception] answers [Http404] with a 404 response; a
    Django [ValidationError] is not an API exception and leaves the view
    (Django answers 500). *)
Definition update_status (req : status_request) (pk : Z) : M status_response :=
  fun s => match update_status_view req pk s with
           | (Raise Http404, s') => (Ret StatusNotFound, s')
           | r => r
           end.

(* ------------------------------------------------------------------ *)
(** ** [LoanApplicationViewSet.summary] (views.py, serializers.py) *)

(** Values of the summary dict. Decimal and float results are kept as
    exact rationals. *)
Inductive value :=
  | VInt (z : Z)
  | VNum (q : Q)
  | VIsoTime (t : Z).        (** [timezone.now().isoformat()] at instant [t] *)

Definition count_status (c : status) (ls : list LoanApplication) : Z :=
  Z.of_nat (List.length (filter (fun l => status_eqb (l_status l) c) ls)).

(** [round(x, 2)], ties to even. *)
Definition round2 (q : Q) : Q :=
  let x := Qmult q (100 # 1) in
  let f := Qfloor x in
  let r := Qminus x (inject_Z f) in
  let n := if Qlt_le_dec (1 # 2) r then f + 1
           else if Qeq_bool r (1 # 2) then (if Z.odd f then f + 1 else f) else f in
  Qmake n 100.

Definition seven_days : Z := 7 * 24 * 3600.

Definition summary_data (s : db) : list (string * value) :=
  let ls := loans s in
  let total := Z.of_nat (List.length ls) in
  let approved := count_status STATUS_APPROVED ls in
  let rejected := count_status STATUS_REJECTED ls in
  let pending := count_status STATUS_PENDING ls in
  let manual_review := count_status STATUS_MANUAL_REVIEW ls in
  let approval_rate :=
    if 0 <? total then round2 (Qmult (Qmake approved (Z.to_pos total)) (100 # 1)) else 0%Q in
  let avg_loan_amount :=
    match ls with
    | [] => 0%Q
    | _ => Qmake (fold_right Z.add 0 (map l_amount ls)) (Z.to_pos total)
    end in
  let seven_days_ago := now s - seven_days in
  let recent := Z.of_nat (List.length (filter (fun l => seven_days_ago <=? l_created_at l) ls)) in
  [("total_applications", VInt total);
   ("approved_applications", VInt approved);
   ("rejected_applications", VInt rejected);
   ("pending_applications", VInt pending);
   ("manual_review_applications", VInt manual_review);
   ("approval_rate", VNum approval_rate);
   ("average_loan_amount", VNum avg_loan_amount);
   ("recent_applications_7_days", VInt recent);
   ("timestamp", VIsoTime (now s))].

(** The fields [ReportSummarySerializer] declares, in order. *)
Definition ReportSummarySerializer_fields : list string :=
  ["total_applications"; "approved_applications"; "rejected_applications";
   "pending_applications"; "manual_review_applications"; "approval_rate";
   "average_loan_amount"].

Fixpoint value_get (k : string) (d : list (string * value)) : option value :=
  match d with
  | [] => None
  | (k', v) :: r => if String.eqb k k' then Some v else value_get k r
  end.

(** [Serializer(instance).data]: one entry per declared field, read from
    the instance. *)
Definition serializer_data (fields : list string) (inst : list (string * value))
  : list (string * value) :=
  flat_map (fun f => match value_get f inst with Some v => [(f, v)] | None => [] end) fields.

(** [summary]: the response body. *)
Definition summary (s : db) : list (string * value) :=
  serializer_data ReportSummarySerializer_fields (summary_data s).

(* ================================================================== *)
(** * Properties *)

(** Configurations and states used by the concrete statements. *)
Definition dev_settings : settings := mkSettings true false.
Definition live_settings : settings := mkSettings false false.
Definition dev_env : env := mkEnv dev_settings NetTimeout no_faults.
Definition empty_db (t : Z) : db := mkDb [] [] t.

(** The rows [objects.create] and [save()] write. *)
Definition new_applicant (s : db) (email name phone : string) : Applicant :=
  mkApplicant (next_id (map a_id (applicants s))) name email phone (now s) (now s).

Definition new_loan (s : db) (applicant : Applicant) (amount : Z) (st : status) : LoanApplication :=
  mkLoan (next_id (map l_id (loans s))) (a_id applicant) amount None st None (now s) (now s).

Definition saved_loan (s : db) (l : LoanApplication) : LoanApplication :=
  mkLoan (l_id l) (l_applicant l) (l_amount l) (l_risk_score l) (l_status l)
    (l_external_reference l) (l_created_at l) (now s).

(** Concrete submissions in mock mode, and what [create] answers to them
    on an empty database (then, for the second, on the first's result). *)
Definition c6_req : create_request :=
  mkCreateRequest [("email", "new@x.com"); ("name", "Ann")] (Some 5000).

Definition c6_result : py create_response * db :=
  Eval vm_compute in create dev_env c6_req (empty_db 1000).

(** The applicant rows with a given email. *)
Definition applicants_with_email (email : string) (s : db) : list Applicant :=
  filter (fun a => String.eqb (a_email a) email) (applicants s).

Definition c8_req1 : create_request :=
  mkCreateRequest [("email", "new@x.com"); ("name", "Ann"); ("phone", "555")] (Some 5000).
Definition c8_req2 : create_request :=
  mkCreateRequest [("email", "new@x.com"); ("name", "Ann Lee")] (Some 7000).

Definition c8_result1 : py create_response * db :=
  Eval vm_compute in create dev_env c8_req1 (empty_db 1000).

Definition c8_result2 : py create_response * db :=
  Eval vm_compute in create dev_env c8_req2 (snd c8_result1).

(** A PATCH with no query-string filters. *)
Definition plain_patch (v : option string) : status_request := mkStatusRequest None None None v.

(** Whether the date query parameters of a request can be converted: no
    [start_date] or [end_date] that [DateTimeField.to_python] rejects. *)
Definition date_ok (p : option date_param) : bool :=
  match p with Some DateInvalid => false | _ => true end.
Definition dates_parse (req : status_request) : bool :=
  date_ok (q_start_date req) && date_ok (q_end_date req).

(** Whether an application passes the filters of [get_queryset]. *)
Definition listed (req : status_request) (l : LoanApplication) : bool :=
  match q_status req with
  | Some v => if String.eqb v "" then true else String.eqb (status_str (l_status l)) v
  | None => true
  end &&
  match q_start_date req with Some (DateInstant d) => d <=? l_created_at l | _ => true end &&
  match q_end_date req with Some (DateInstant d) => l_created_at l <=? d | _ => true end.

(** The row [update_status] stores for a validated status. *)
Definition patched_row (s : db) (v : option status) (l : LoanApplication) : LoanApplication :=
  mkLoan (l_id l) (l_applicant l) (l_amount l) (l_risk_score l)
    (match v with Some c => c | None => l_status l end)
    (l_external_reference l) (l_created_at l) (now s).

(** An application in manual review, and a database holding it. *)
Definition mr_loan : LoanApplication :=
  mkLoan 1 1 5000 (Some 55) STATUS_MANUAL_REVIEW None 1000 1000.
Definition mr_db : db :=
  mkDb [mkApplicant 1 "Ann" "new@x.com" "555" 1000 1000] [mr_loan] 2000.

(** [n] successive PATCH requests setting status [v] on application [pk],
    without query parameters, each on the database the previous one left. *)
Fixpoint patch_n (n : nat) (v : string) (pk : Z) (s : db) : list (py status_response) * db :=
  match n with
  | O => ([], s)
  | S n' =>
      let '(r, s1) := update_status (plain_patch (Some v)) pk s in
      let '(rs, s2) := patch_n n' v pk s1 in
      (r :: rs, s2)
  end.

(** The Mersenne Twister words are unsigned 32-bit values: every word of
    the state stays non-negative, so every draw is. *)
Definition words_nonneg (l : list Z) : Prop := Forall (fun x => 0 <= x) l.

(** A computation whose every returned value lies in [0, 100]. *)
Definition clamped (x : py Z) : Prop := forall sc, x = Ret sc -> 0 <= sc <= 100.

(** The decisions in increasing order of risk. *)
Definition decision_rank (c : status) : Z :=
  match c with
  | STATUS_APPROVED => 0
  | STATUS_MANUAL_REVIEW => 1
  | STATUS_REJECTED => 2
  | STATUS_PENDING => 3
  end.

(** The integrity the database keeps: application ids, applicant ids and
    applicant emails are distinct (primary keys and [unique=True]), and
    every application references a stored applicant (the foreign key). *)
Definition db_invariants (s : db) : Prop :=
  NoDup (map l_id (loans s)) /\ NoDup (map a_id (applicants s)) /\
  NoDup (map a_email (applicants s)) /\
  (forall l, In l (loans s) -> exists a, In a (applicants s) /\ a_id a = l_applicant l).

(** The live configuration with the scoring service timing out, and what
    [create] answers to [c6_req] there. *)
Definition live_env : env := mkEnv live_settings NetTimeout no_faults.

Definition live_outage_result : py create_response * db :=
  Eval vm_compute in create live_env c6_req (empty_db 1000).

(** A resubmission of [mr_db]'s applicant with the stored name and phone. *)
Definition same_details_result : py create_response * db :=
  Eval vm_compute in create dev_env c8_req1 mr_db.

Definition no_email_req : create_request :=
  mkCreateRequest [("name", "Ann")] (Some 5000).

(** Two applications of one applicant, with amounts 1000 and 3000. *)
Definition two_loans_db : db :=
  mkDb [mkApplicant 1 "Ann" "new@x.com" "555" 1000 1000]
       [mkLoan 1 1 1000 (Some 20) STATUS_APPROVED None 1000 1000;
        mkLoan 2 1 3000 (Some 55) STATUS_MANUAL_REVIEW None 1500 1500] 2000.

(** Reference values, checked against CPython. *)
Example md5_prefix_seed_ex : md5_prefix_seed "a@x.com5000" = 388409085.
Proof. vm_compute. reflexivity. Qed.

Example randint_after_seed_ex : randint_after_seed 388409085 (-12) 12 = Ret (-11).
Proof. vm_compute. reflexivity. Qed.

Example str_of_Z_ex : str_of_Z (-1024) = "-1024" /\ str_of_Z 0 = "0".
Proof. vm_compute. split; reflexivity. Qed.

(** Claim C3. [decide], the branch of lines 113-118, is a total function of
    the score: below 30 approved, above 70 rejected, 30 to 70 inclusive
    manual review; at the boundaries 29, 30, 70 and 71 it gives approved,
    manual_review, manual_review and rejected; and it is the status the
    workflow writes next to the score. *)
Theorem decide_thresholds (risk_score : Z) :
  (risk_score < 30 -> decide risk_score = STATUS_APPROVED) /\
  (70 < risk_score -> decide risk_score = STATUS_REJECTED) /\
  (30 <= risk_score <= 70 -> decide risk_score = STATUS_MANUAL_REVIEW) /\
  (forall l, l_status (set_score_and_status l risk_score) = decide risk_score) /\
  decide 29 = STATUS_APPROVED /\ decide 30 = STATUS_MANUAL_REVIEW /\
  decide 70 = STATUS_MANUAL_REVIEW /\ decide 71 = STATUS_REJECTED.
Proof.
  unfold decide.
  repeat split; intros;
    repeat match goal with |- context [?a <? ?b] => destruct (Z.ltb_spec a b) end;
    try reflexivity; lia.
Qed.

(** Claim C2, refuted. In live mode a response that did arrive with status
    500 does not propagate: [raise_for_status] raises [HTTPError], a
    [RequestException], and the fallback value 50 is returned. *)
Lemma live_http_500_falls_back :
  get_risk_score live_settings (HttpResponse 500 (Some (JObject [("score", 90)])))
    (mkData "Ann" "new@x.com" "555") 5000 = Ret 50.
Proof. vm_compute. reflexivity. Qed.

(** Claim C9, refuted. Two mock scorings with the same email and amount but
    a one-word and a two-word name give different scores (45 and 41): the
    name factor is not part of the seed. *)
Lemma mock_score_same_email_amount_differs :
  _calculate_mock_score (mkData "A" "a@x.com" "") 5000 = Ret 45 /\
  _calculate_mock_score (mkData "A B" "a@x.com" "") 5000 = Ret 41.
Proof. vm_compute. split; reflexivity. Qed.

(** Claim C4, code defect. A submission with amount 50, below the
    [MinValueValidator(100)] of [LoanApplication.amount], is not rejected:
    [objects.create] runs no validators, so in the development
    configuration one applicant and one application with amount 50 are
    created and the response is 201. *)
Theorem create_accepts_amount_below_minimum :
  match create dev_env
          (mkCreateRequest [("email", "new@x.com"); ("name", "Ann")] (Some 50))
          (empty_db 1000) with
  | (Ret (Created l), s') =>
      l_amount l = 50 /\ List.length (applicants s') = 1%nat /\ List.length (loans s') = 1%nat
  | _ => False
  end.
Proof. vm_compute. repeat split. Qed.

(** Claim C5, code defect. The view computes [recent_applications_7_days]
    and [timestamp] into [summary_data], but [ReportSummarySerializer]
    declares neither field, so the response carries only the seven
    declared keys; on an empty application set those are all 0. *)
Theorem summary_drops_recent_and_timestamp (s : db) :
  value_get "recent_applications_7_days" (summary_data s) <> None /\
  value_get "timestamp" (summary_data s) = Some (VIsoTime (now s)) /\
  map fst (summary s) = ReportSummarySerializer_fields /\
  value_get "recent_applications_7_days" (summary s) = None /\
  value_get "timestamp" (summary s) = None /\
  summary (empty_db (now s)) =
    [("total_applications", VInt 0); ("approved_applications", VInt 0);
     ("rejected_applications", VInt 0); ("pending_applications", VInt 0);
     ("manual_review_applications", VInt 0); ("approval_rate", VNum 0);
     ("average_loan_amount", VNum 0)].
Proof.
  repeat split; try discriminate; reflexivity.
Qed.

(** ** Inversion lemmas for the workflow *)

Lemma mbind_ret {A B} (m : M A) (f : A -> M B) s b s' :
  mbind m f s = (Ret b, s') -> exists a s1, m s = (Ret a, s1) /\ f a s1 = (Ret b, s').
Proof.
  unfold mbind. destruct (m s) as [[a|e|] s1]; intro H; try discriminate; eauto.
Qed.

Lemma next_id_gt (ids : list Z) (i : Z) : In i ids -> i < next_id ids.
Proof.
  unfold next_id. induction ids as [|j ids IH]; simpl; [tauto|].
  intros [->|H]; [lia|]. specialize (IH H). lia.
Qed.

Lemma map_replace_fresh {T} (key : T -> Z) (k : Z) (x : T) (ls : list T) :
  (forall r, In r ls -> key r < k) ->
  map (fun r => if key r =? k then x else r) ls = ls.
Proof.
  induction ls as [|r ls IH]; simpl; intros H; [reflexivity|].
  rewrite IH by auto. specialize (H r (or_introl eq_refl)).
  destruct (Z.eqb_spec (key r) k); [lia|reflexivity].
Qed.

Lemma write_fields_nil (inst row : Applicant) : write_fields [] inst row = row.
Proof. destruct row; reflexivity. Qed.

Lemma update_applicant_id data a :
  a_id (fst (update_applicant data a)) = a_id a /\
  a_email (fst (update_applicant data a)) = a_email a.
Proof.
  unfold update_applicant.
  destruct (dict_get "name" data) as [n|]; [destruct (negb (String.eqb n (a_name a)))|];
  destruct (dict_get "phone" data) as [p|]; simpl; try split; try reflexivity;
  try (destruct (negb _); reflexivity).
Qed.

Lemma get_or_create_ret fail email name phone s r s' :
  get_or_create fail email name phone s = (Ret r, s') ->
  match find_applicant_by_email email s with
  | Some a => r = (a, false) /\ s' = s
  | None => r = (new_applicant s email name phone, true) /\
            s' = mkDb (applicants s ++ [new_applicant s email name phone]) (loans s) (now s)
  end.
Proof.
  unfold get_or_create. destruct fail; [discriminate|].
  destruct (find_applicant_by_email email s); intro H; inversion H; subst; auto.
Qed.

Lemma applicant_save_fields_ret fail fields inst s u s' :
  applicant_save_fields fail fields inst s = (Ret u, s') ->
  s' = mkDb (map (fun r => if a_id r =? a_id inst then write_fields fields inst r else r)
                 (applicants s)) (loans s) (now s).
Proof.
  unfold applicant_save_fields. destruct fail; [discriminate|].
  intro H; inversion H; auto.
Qed.

Lemma loan_create_ret fail applicant amount st s l s' :
  loan_create fail applicant amount st s = (Ret l, s') ->
  l = new_loan s applicant amount st /\
  s' = mkDb (applicants s) (loans s ++ [l]) (now s).
Proof.
  unfold loan_create. destruct fail; [discriminate|].
  intro H; inversion H; auto.
Qed.

Lemma loan_save_ret fail l s l' s' :
  loan_save fail l s = (Ret l', s') ->
  l' = saved_loan s l /\
  s' = mkDb (applicants s)
            (map (fun r => if l_id r =? l_id l then saved_loan s l else r) (loans s)) (now s).
Proof.
  unfold loan_save. destruct fail; [discriminate|].
  intro H; inversion H; auto.
Qed.

Ltac inv_bind H a s Hm :=
  apply mbind_ret in H; destruct H as (a & s & Hm & H).

(** What a successful run of steps 2-6 does to the database. *)
Lemma create_try_success ev data email amt s r s' :
  create_try ev data email amt s = (Ret r, s') ->
  exists l, r = Created l /\
    now s' = now s /\
    loans s' = loans s ++ [l] /\
    l_id l = next_id (map l_id (loans s)) /\
    l_amount l = amt /\
    (exists rs, l_risk_score l = Some rs /\ l_status l = decide rs) /\
    match find_applicant_by_email email s with
    | None =>
        applicants s' = applicants s ++
          [new_applicant s email (dict_get_default "name" "" data)
                                 (dict_get_default "phone" "" data)] /\
        l_applicant l = next_id (map a_id (applicants s))
    | Some a =>
        applicants s' =
          map (fun row => if a_id row =? a_id a
                          then write_fields (snd (update_applicant data a))
                                            (fst (update_applicant data a)) row
                          else row) (applicants s) /\
        l_applicant l = a_id a
    end.
Proof.
  unfold create_try. intro H.
  inv_bind H p s0 Hm. destruct p as [applicant created].
  apply get_or_create_ret in Hm.
  inv_bind H applicant' s1 Hm0.
  assert (Hup : match find_applicant_by_email email s with
                | Some a0 =>
                    applicant' = fst (update_applicant data a0) /\
                    applicants s1 = map (fun row => if a_id row =? a_id a0
                          then write_fields (snd (update_applicant data a0))
                                            (fst (update_applicant data a0)) row
                          else row) (applicants s) /\
                    loans s1 = loans s /\ now s1 = now s
                | None =>
                    applicant' = new_applicant s email (dict_get_default "name" "" data)
                                   (dict_get_default "phone" "" data) /\
                    applicants s1 = applicants s ++
                      [new_applicant s email (dict_get_default "name" "" data)
                                     (dict_get_default "phone" "" data)] /\
                    loans s1 = loans s /\ now s1 = now s
                end).
  { destruct (find_applicant_by_email email s) as [a0|] eqn:Hf;
      destruct Hm as [Hr ->]; inversion Hr; subst; clear Hr.
    - cbv beta iota in Hm0.
      pose proof (update_applicant_id data a0) as [Hid _].
      destruct (update_applicant data a0) as [a' fields] eqn:Hu. simpl in Hid |- *.
      destruct fields as [|f fs].
      + inversion Hm0; subst. repeat split; try reflexivity.
        rewrite <- (map_id (applicants s1)) at 1. apply map_ext. intro row.
        rewrite write_fields_nil. destruct (_ =? _); reflexivity.
      + inv_bind Hm0 u s2 Hsave. apply applicant_save_fields_ret in Hsave. inversion Hm0; subst.
        simpl. rewrite Hid. repeat split; reflexivity.
    - cbv beta iota in Hm0. inversion Hm0; subst. simpl. repeat split; reflexivity. }
  clear Hm Hm0.
  inv_bind H l0 s2 Hm. apply loan_create_ret in Hm as [Hl0 Hs2].
  inv_bind H rs s3 Hm. unfold mlift in Hm. inversion Hm; subst s3. clear Hm.
  inv_bind H l1 s4 Hm. apply loan_save_ret in Hm as [Hl1 Hs4].
  unfold mret in H. inversion H; subst r s'. clear H.
  assert (Hfresh : forall row, In row (loans s1) -> l_id row < l_id l0).
  { intros row Hin. rewrite Hl0. unfold new_loan; simpl.
    apply next_id_gt, in_map, Hin. }
  exists l1. subst s4 s2. simpl.
  rewrite map_app, (map_replace_fresh l_id). 2: { simpl. exact Hfresh. }
  simpl. rewrite Z.eqb_refl.
  destruct (find_applicant_by_email email s) as [a0|];
    destruct Hup as (Hap & Has & Hls & Hn);
    subst l1 l0; unfold saved_loan, new_loan, set_score_and_status; simpl;
    rewrite ?Hls, ?Hn;
    (split; [reflexivity|]); (split; [reflexivity|]); (split; [reflexivity|]);
    repeat split; eauto; try subst applicant'; simpl; try assumption; try reflexivity.
  apply (proj1 (update_applicant_id _ _)).
Qed.

(** [create] unfolded: validation, then the [try] block under
    [transaction.atomic]; an exception in the block reaches the handler,
    whose [logger.error] raises [NameError], which leaves the atomic block
    and rolls the database back. *)
Lemma create_eq ev req s :
  create ev req s =
  if create_valid req then
    match create_steps ev req s with
    | (Ret r, s') => (Ret r, s')
    | (Raise _, _) => (Raise NameError, s)
    | (Stuck, _) => (Stuck, s)
    end
  else
    (Ret (BadRequest (if dict_falsy (r_applicant req) || amount_falsy (r_amount req)
                      then "Applicant data and amount are required"
                      else "Email is required in applicant data")), s).
Proof.
  unfold create, atomic, try_except, create_valid.
  destruct (dict_falsy (r_applicant req) || amount_falsy (r_amount req)); simpl;
    [reflexivity|].
  destruct (str_falsy (dict_get "email" (r_applicant req))); simpl; [reflexivity|].
  destruct (create_steps ev req s) as [[r|e|] s']; reflexivity.
Qed.

Lemma create_steps_ret ev req s r s' :
  create_steps ev req s = (Ret r, s') -> exists l, r = Created l.
Proof.
  unfold create_steps. intro H. apply create_try_success in H as (l & -> & _). eauto.
Qed.

Lemma create_success ev req s l s' :
  create ev req s = (Ret (Created l), s') ->
  create_valid req = true /\ create_steps ev req s = (Ret (Created l), s').
Proof.
  rewrite create_eq. destruct (create_valid req); [|discriminate].
  destruct (create_steps ev req s) as [[r|e|] s1]; intro H; inversion H; subst; auto.
Qed.

(** Claim C1. If any step from the applicant upsert to the final save
    raises, [create] ends in an internal error (an exception Django answers
    with a 500) and the database is exactly as before; whenever [create]
    ends in an internal error the database is unchanged; and a submission
    failing the step-1 validation is answered 400 before anything is
    written. (The rollback happens because the handler's [logger] is
    unbound in views.py: its [NameError] leaves the atomic block.) *)
Theorem create_all_or_nothing (ev : env) (req : create_request) (s : db) :
  (create_valid req = false ->
     exists msg, create ev req s = (Ret (BadRequest msg), s)) /\
  (forall e s1, create_valid req = true -> create_steps ev req s = (Raise e, s1) ->
     internal_error (fst (create ev req s)) = true /\ snd (create ev req s) = s) /\
  (internal_error (fst (create ev req s)) = true -> snd (create ev req s) = s).
Proof.
  rewrite create_eq. split; [|split].
  - intros ->. eauto.
  - intros e s1 -> ->. simpl. auto.
  - destruct (create_valid req); [|reflexivity].
    destruct (create_steps ev req s) as [[r|e|] s1] eqn:E; simpl; try reflexivity.
    apply create_steps_ret in E as [l ->]. discriminate.
Qed.

(** Claim C6. A submission that [create] answers with a created
    application leaves it approved, rejected or in manual review, never
    pending, and that row is the one stored. *)
Theorem create_never_returns_pending ev req s l s'
    (H : create ev req s = (Ret (Created l), s')) :
  l_status l <> STATUS_PENDING /\
  In (l_status l) [STATUS_APPROVED; STATUS_REJECTED; STATUS_MANUAL_REVIEW] /\
  In l (loans s').
Proof.
  apply create_success in H as [_ H]. unfold create_steps in H.
  apply create_try_success in H as (l' & Hl & _ & Hls & _ & _ & (rs & _ & Hst) & _).
  inversion Hl; subst l'. rewrite Hst, Hls.
  unfold decide.
  destruct (rs <? 30); [|destruct (70 <? rs)]; simpl;
    (split; [discriminate|]); split; auto using in_or_app, in_eq.
Qed.

Lemma create_never_returns_pending_witness :
  match c6_result with
  | (Ret (Created l), s') =>
      l_status l <> STATUS_PENDING /\
      In (l_status l) [STATUS_APPROVED; STATUS_REJECTED; STATUS_MANUAL_REVIEW] /\
      In l (loans s')
  | _ => False
  end.
Proof.
  assert (E : create dev_env c6_req (empty_db 1000) = c6_result)
    by (vm_compute; reflexivity).
  unfold c6_result in *. cbv beta iota.
  exact (create_never_returns_pending _ _ _ _ _ E).
Defined.

(** ** Applicant upsert *)

Lemma filter_find_none {T} (f : T -> bool) (l : list T) :
  find f l = None -> filter f l = [].
Proof.
  induction l as [|x l IH]; simpl; [reflexivity|].
  destruct (f x); [discriminate|exact IH].
Qed.

Lemma filter_single_find {T} (f : T -> bool) (l : list T) (x : T) :
  filter f l = [x] -> find f l = Some x.
Proof.
  induction l as [|y l IH]; simpl; [discriminate|].
  destruct (f y); [intro H; inversion H; reflexivity|exact IH].
Qed.

Lemma find_filter_le1 {T} (f : T -> bool) (l : list T) (x : T) :
  find f l = Some x -> (List.length (filter f l) <= 1)%nat -> filter f l = [x].
Proof.
  induction l as [|y l IH]; simpl; [discriminate|].
  destruct (f y) eqn:Fy.
  - intros H Hlen; inversion H; subst. simpl in Hlen.
    destruct (filter f l); [reflexivity|simpl in Hlen; lia].
  - exact IH.
Qed.

Lemma filter_map_pres {T} (f : T -> bool) (g : T -> T) (l : list T) :
  (forall x, f (g x) = f x) -> filter f (map g l) = map g (filter f l).
Proof.
  intro Hg. induction l as [|x l IH]; simpl; [reflexivity|].
  rewrite Hg. destruct (f x); simpl; rewrite IH; reflexivity.
Qed.

(** The stored row after [update_applicant] and [save(update_fields=...)]:
    name and phone from the request when given, everything else kept. *)
Lemma upsert_row data a :
  write_fields (snd (update_applicant data a)) (fst (update_applicant data a)) a =
  mkApplicant (a_id a)
    (match dict_get "name" data with Some n => n | None => a_name a end)
    (a_email a)
    (match dict_get "phone" data with Some p => p | None => a_phone a end)
    (a_created_at a) (a_updated_at a).
Proof.
  destruct a as [i nm em ph c u]. unfold update_applicant; simpl.
  destruct (dict_get "name" data) as [n|]; destruct (dict_get "phone" data) as [p|]; simpl;
    repeat match goal with
           | |- context [String.eqb ?x ?y] =>
               destruct (String.eqb_spec x y); [subst|]; simpl
           end; reflexivity.
Qed.

(** The [update_fields] list: [name] when the name differs, then [phone]
    when the phone differs. *)
Lemma update_fields_eq data a :
  snd (update_applicant data a) =
  (match dict_get "name" data with
   | Some n => if String.eqb n (a_name a) then [] else [F_name] | None => [] end) ++
  (match dict_get "phone" data with
   | Some p => if String.eqb p (a_phone a) then [] else [F_phone] | None => [] end).
Proof.
  destruct a as [i nm em ph c u]. unfold update_applicant; simpl.
  destruct (dict_get "name" data) as [n|]; destruct (dict_get "phone" data) as [p|]; simpl;
    repeat match goal with
           | |- context [String.eqb ?x ?y] =>
               destruct (String.eqb_spec x y); [subst|]; simpl
           end; reflexivity.
Qed.

Lemma write_row_email fields inst row : a_email (write_fields fields inst row) = a_email row.
Proof. reflexivity. Qed.

(** One successful submission and the applicant row of its email. *)
Lemma create_upsert ev data amt email s l s' :
  dict_get "email" data = Some email ->
  (List.length (applicants_with_email email s) <= 1)%nat ->
  create ev (mkCreateRequest data amt) s = (Ret (Created l), s') ->
  exists a, applicants_with_email email s' = [a] /\
    a_name a = match dict_get "name" data with
               | Some n => n
               | None => match find_applicant_by_email email s with
                         | Some a0 => a_name a0 | None => "" end
               end /\
    l_applicant l = a_id a /\
    loans s' = loans s ++ [l] /\
    l_id l = next_id (map l_id (loans s)) /\
    match find_applicant_by_email email s with
    | Some a0 =>
        a = write_fields (snd (update_applicant data a0)) (fst (update_applicant data a0)) a0
    | None => True
    end.
Proof.
  intros He Huniq H.
  apply create_success in H as [_ H]. unfold create_steps in H. simpl in H.
  unfold dict_get_default at 1 in H. rewrite He in H.
  apply create_try_success in H as (l' & Hl & _ & Hls & Hid & _ & _ & Happ).
  inversion Hl; subst l'.
  unfold applicants_with_email in *.
  destruct (find_applicant_by_email email s) as [a0|] eqn:Hf; destruct Happ as [Has Hla].
  - pose proof (find_filter_le1 _ _ _ Hf Huniq) as Hfil.
    exists (write_fields (snd (update_applicant data a0)) (fst (update_applicant data a0)) a0).
    rewrite Has, filter_map_pres by (intro x; destruct (_ =? _); reflexivity).
    rewrite Hfil. cbn [map].
    rewrite Z.eqb_refl.
    rewrite upsert_row. simpl.
    repeat split; auto.
  - exists (new_applicant s email (dict_get_default "name" "" data)
                         (dict_get_default "phone" "" data)).
    rewrite Has, filter_app, (filter_find_none _ _ Hf). simpl.
    rewrite String.eqb_refl. simpl.
    repeat split; auto.
Qed.

(** Claim C8. Two successful submissions with the same email, the second
    with a different name, starting from a state with at most one
    applicant of that email (the [unique=True] constraint): afterwards
    exactly one applicant row has the email and it carries the second
    name; the two applications are distinct rows both referencing it; the
    second submission's [update_fields] lists [name], and [phone] only if
    the phone differs, and the stored row is the old one with exactly
    those columns overwritten. *)
Theorem resubmission_updates_applicant_in_place
    (ev1 ev2 : env) (email n1 n2 : string) (data1 data2 : list (string * string))
    (amt1 amt2 : option Z) (s0 s1 s2 : db) (l1 l2 : LoanApplication)
    (Huniq : (List.length (applicants_with_email email s0) <= 1)%nat)
    (He1 : dict_get "email" data1 = Some email) (He2 : dict_get "email" data2 = Some email)
    (Hn1 : dict_get "name" data1 = Some n1) (Hn2 : dict_get "name" data2 = Some n2)
    (Hdiff : n1 <> n2)
    (H1 : create ev1 (mkCreateRequest data1 amt1) s0 = (Ret (Created l1), s1))
    (H2 : create ev2 (mkCreateRequest data2 amt2) s1 = (Ret (Created l2), s2)) :
  exists a1 a2,
    applicants_with_email email s1 = [a1] /\ a_name a1 = n1 /\
    applicants_with_email email s2 = [a2] /\ a_name a2 = n2 /\
    loans s2 = loans s0 ++ [l1; l2] /\ l_id l1 <> l_id l2 /\
    l_applicant l1 = a_id a2 /\ l_applicant l2 = a_id a2 /\
    snd (update_applicant data2 a1) =
      F_name :: match dict_get "phone" data2 with
                | Some p => if String.eqb p (a_phone a1) then [] else [F_phone]
                | None => []
                end /\
    a2 = write_fields (snd (update_applicant data2 a1)) (fst (update_applicant data2 a1)) a1 /\
    a2 = mkApplicant (a_id a1) n2 (a_email a1)
           (match dict_get "phone" data2 with Some p => p | None => a_phone a1 end)
           (a_created_at a1) (a_updated_at a1).
Proof.
  destruct (create_upsert _ _ _ _ _ _ _ He1 Huniq H1)
    as (a1 & Hs1 & Hname1 & Hla1 & Hls1 & Hid1 & _).
  rewrite Hn1 in Hname1.
  assert (Huniq1 : (List.length (applicants_with_email email s1) <= 1)%nat)
    by (rewrite Hs1; simpl; lia).
  destruct (create_upsert _ _ _ _ _ _ _ He2 Huniq1 H2)
    as (a2 & Hs2 & Hname2 & Hla2 & Hls2 & Hid2 & Hrow).
  rewrite Hn2 in Hname2.
  assert (Hf1 : find_applicant_by_email email s1 = Some a1)
    by (apply filter_single_find; exact Hs1).
  rewrite Hf1 in Hrow.
  assert (Hin1 : In l1 (loans s1)) by (rewrite Hls1; apply in_or_app; right; left; reflexivity).
  assert (Hlt : l_id l1 < l_id l2) by (rewrite Hid2; apply next_id_gt, in_map, Hin1).
  exists a1, a2. repeat split; auto.
  - rewrite Hls2, Hls1, <- app_assoc. reflexivity.
  - lia.
  - rewrite Hla1, Hrow. reflexivity.
  - rewrite update_fields_eq, Hn2.
    destruct (String.eqb_spec n2 (a_name a1)) as [E|_]; [congruence|reflexivity].
  - rewrite Hrow, upsert_row, Hn2. reflexivity.
Qed.

Lemma resubmission_updates_applicant_in_place_witness :
  match c8_result1 with
  | (Ret (Created l1), s1) =>
      match c8_result2 with
      | (Ret (Created l2), s2) =>
          exists a1 a2,
            applicants_with_email "new@x.com" s1 = [a1] /\ a_name a1 = "Ann" /\
            applicants_with_email "new@x.com" s2 = [a2] /\ a_name a2 = "Ann Lee" /\
            loans s2 = loans (empty_db 1000) ++ [l1; l2] /\ l_id l1 <> l_id l2 /\
            l_applicant l1 = a_id a2 /\ l_applicant l2 = a_id a2 /\
            snd (update_applicant (r_applicant c8_req2) a1) =
              F_name :: match dict_get "phone" (r_applicant c8_req2) with
                        | Some p => if String.eqb p (a_phone a1) then [] else [F_phone]
                        | None => []
                        end /\
            a2 = write_fields (snd (update_applicant (r_applicant c8_req2) a1))
                   (fst (update_applicant (r_applicant c8_req2) a1)) a1 /\
            a2 = mkApplicant (a_id a1) "Ann Lee" (a_email a1)
                   (match dict_get "phone" (r_applicant c8_req2) with
                    | Some p => p | None => a_phone a1 end)
                   (a_created_at a1) (a_updated_at a1)
      | _ => False
      end
  | _ => False
  end.
Proof.
  assert (E1 : create dev_env c8_req1 (empty_db 1000) = c8_result1)
    by (vm_compute; reflexivity).
  assert (E2 : create dev_env c8_req2 (snd c8_result1) = c8_result2)
    by (vm_compute; reflexivity).
  unfold c8_result2, c8_result1 in *. cbv beta iota in *.
  exact (resubmission_updates_applicant_in_place dev_env dev_env "new@x.com" "Ann" "Ann Lee"
           (r_applicant c8_req1) (r_applicant c8_req2) (Some 5000) (Some 7000)
           (empty_db 1000) _ _ _ _ (le_S _ _ (le_n 0)) eq_refl eq_refl eq_refl eq_refl
           ltac:(discriminate) E1 E2).
Defined.

(** ** [update_status] *)

Lemma filter_filter_and {T} (f g : T -> bool) (l : list T) :
  filter f (filter g l) = filter (fun x => g x && f x) l.
Proof.
  induction l as [|x l IH]; cbn [filter]; [reflexivity|].
  destruct (g x); cbn [filter andb]; [destruct (f x); rewrite ?IH; reflexivity|exact IH].
Qed.

Lemma get_queryset_cases req s :
  (dates_parse req = false /\ get_queryset req s = Raise ValidationError) \/
  (dates_parse req = true /\ get_queryset req s = Ret (filter (listed req) (loans s))).
Proof.
  unfold dates_parse, get_queryset, listed, date_ok, date_filter.
  destruct req as [qs qd qe ds]. cbn [q_status q_start_date q_end_date].
  set (fs := fun l : LoanApplication =>
               match qs with
               | Some v => if String.eqb v "" then true else String.eqb (status_str (l_status l)) v
               | None => true
               end).
  assert (Hs : match qs with
               | Some status_filter =>
                   if String.eqb status_filter "" then loans s
                   else filter (fun l => String.eqb (status_str (l_status l)) status_filter) (loans s)
               | None => loans s
               end = filter fs (loans s)).
  { unfold fs. destruct qs as [v|].
    - destruct (String.eqb v ""); [|reflexivity].
      induction (loans s) as [|x l IH]; cbn [filter]; [reflexivity|]. rewrite <- IH. reflexivity.
    - induction (loans s) as [|x l IH]; cbn [filter]; [reflexivity|]. rewrite <- IH. reflexivity. }
  rewrite Hs. fold fs.
  destruct qd as [[d|]|]; destruct qe as [[e|]|]; cbn [py_bind andb];
    try (left; split; reflexivity); right; split; try reflexivity;
    rewrite ?filter_filter_and; f_equal; apply filter_ext;
    intro x; rewrite ?andb_true_r, ?andb_assoc; reflexivity.
Qed.

Lemma get_queryset_plain v s : get_queryset (plain_patch v) s = Ret (loans s).
Proof. reflexivity. Qed.

Lemma find_filter_none {T} (p f : T -> bool) (l : list T) :
  find f l = None -> find f (filter p l) = None.
Proof.
  induction l as [|x l IH]; simpl; [reflexivity|].
  destruct (f x) eqn:Fx; [discriminate|]. intro H.
  destruct (p x); simpl; [rewrite Fx|]; auto.
Qed.

Lemma get_object_cases req pk s :
  get_object req pk s =
  if dates_parse req then
    match find (fun l => l_id l =? pk) (filter (listed req) (loans s)) with
    | Some l => Ret l
    | None => Raise Http404
    end
  else Raise ValidationError.
Proof.
  unfold get_object. destruct (get_queryset_cases req s) as [[-> ->]|[-> ->]]; reflexivity.
Qed.

Lemma get_object_absent req pk s :
  dates_parse req = true ->
  find (fun l => l_id l =? pk) (loans s) = None -> get_object req pk s = Raise Http404.
Proof.
  intros Hd H. rewrite get_object_cases, Hd, (find_filter_none _ _ _ H). reflexivity.
Qed.

Lemma get_object_invalid req pk s :
  dates_parse req = false -> get_object req pk s = Raise ValidationError.
Proof. intro Hd. rewrite get_object_cases, Hd. reflexivity. Qed.

Lemma get_object_some req pk s l :
  get_object req pk s = Ret l -> In l (loans s) /\ l_id l = pk.
Proof.
  rewrite get_object_cases. destruct (dates_parse req); [|discriminate].
  destruct (find _ _) as [l'|] eqn:F; intro H; [|discriminate].
  injection H as <-. apply find_some in F as [Hin Hid].
  apply filter_In in Hin as [Hin _].
  split; [exact Hin | apply Z.eqb_eq, Hid].
Qed.

Lemma get_object_raise req pk s e :
  get_object req pk s = Raise e -> e = Http404 \/ e = ValidationError.
Proof.
  rewrite get_object_cases. destruct (dates_parse req); [destruct (find _ _)|];
    intro H; inversion H; auto.
Qed.

Lemma get_object_not_stuck req pk s : get_object req pk s = Stuck -> False.
Proof.
  rewrite get_object_cases. destruct (dates_parse req); [destruct (find _ _)|]; discriminate.
Qed.
Lemma update_status_eq req pk s :
  update_status req pk s =
  match get_object req pk s with
  | Ret l =>
      if negb (status_eqb (l_status l) STATUS_MANUAL_REVIEW) then
        (Ret (StatusBadRequest "Only manual review applications can be updated"), s)
      else
        match validate_status (data_status req) with
        | Valid v =>
            (Ret (StatusOk (status_str (l_status (patched_row s v l)))),
             mkDb (applicants s)
                  (map (fun r => if l_id r =? l_id l then patched_row s v l else r) (loans s))
                  (now s))
        | Invalid => (Ret (StatusBadRequest "is not a valid choice"), s)
        end
  | Raise Http404 => (Ret StatusNotFound, s)
  | Raise e => (Raise e, s)
  | Stuck => (Stuck, s)
  end.
Proof.
  unfold update_status, update_status_view, mbind.
  destruct (get_object req pk s) as [l|[]|]; try reflexivity.
  destruct (negb _); [reflexivity|].
  destruct (validate_status (data_status req)) as [v|]; [|reflexivity].
  unfold loan_save, mret. destruct v; reflexivity.
Qed.

Lemma status_eqb_true s t : status_eqb s t = true <-> s = t.
Proof. destruct s, t; vm_compute; split; congruence. Qed.

Lemma get_object_plain v pk s l :
  find (fun r => l_id r =? pk) (loans s) = Some l -> get_object (plain_patch v) pk s = Ret l.
Proof. unfold get_object. rewrite get_queryset_plain. cbn [py_bind]. intros ->. reflexivity. Qed.

(** Claim C7, refuted. For application 1, in manual review: a PATCH with
    status [foo] is answered 400 by the serializer's choice validation
    (the update does not succeed); a PATCH carrying the query parameter
    [status=approved] is answered 404, because [get_object] looks the
    application up through the filtered [get_queryset]; a PATCH whose
    [start_date] Django cannot parse raises [ValidationError] out of
    [get_queryset], which the view does not catch (a 500); and a successful
    update also rewrites [updated_at] (an [auto_now] field), so the status
    is not the only field that changes. *)
Lemma update_status_manual_review_can_fail :
  update_status (plain_patch (Some "foo")) 1 mr_db =
    (Ret (StatusBadRequest "is not a valid choice"), mr_db) /\
  update_status (mkStatusRequest (Some "approved") None None (Some "approved")) 1 mr_db =
    (Ret StatusNotFound, mr_db) /\
  update_status (mkStatusRequest None (Some DateInvalid) None (Some "approved")) 1 mr_db =
    (Raise ValidationError, mr_db) /\
  update_status (plain_patch (Some "approved")) 1 mr_db =
    (Ret (StatusOk "approved"),
     mkDb (applicants mr_db) [mkLoan 1 1 5000 (Some 55) STATUS_APPROVED None 1000 2000] 2000).
Proof. split; [|split; [|split]]; reflexivity. Qed.

(** Claim C7, as the code has it. A [start_date] or [end_date] query
    parameter that Django cannot parse makes [get_queryset] raise
    [ValidationError], which leaves [update_status] (a 500) and changes
    nothing. Otherwise, an application absent from the database, or
    filtered out by the request's query parameters ([status],
    [start_date], [end_date]), is answered 404; one whose status is not
    manual review is answered 400 (invalid state); for one in manual
    review, a [status] value outside the four choices is answered 400 and
    otherwise the update succeeds: the row keeps its id, amount,
    risk_score, applicant, external reference and creation time, takes the
    new status (unchanged when the request gives none) and [updated_at] is
    refreshed, and no other row changes. Without query parameters an
    existing application is found. *)
Theorem update_status_guard (req : status_request) (pk : Z) (s : db) :
  (dates_parse req = false -> update_status req pk s = (Raise ValidationError, s)) /\
  (dates_parse req = true -> find (fun l => l_id l =? pk) (loans s) = None ->
     update_status req pk s = (Ret StatusNotFound, s)) /\
  (get_object req pk s = Raise Http404 -> update_status req pk s = (Ret StatusNotFound, s)) /\
  (forall l, get_object req pk s = Ret l -> l_status l <> STATUS_MANUAL_REVIEW ->
     update_status req pk s =
       (Ret (StatusBadRequest "Only manual review applications can be updated"), s)) /\
  (forall l, get_object req pk s = Ret l -> l_status l = STATUS_MANUAL_REVIEW ->
     validate_status (data_status req) = Invalid ->
     update_status req pk s = (Ret (StatusBadRequest "is not a valid choice"), s)) /\
  (forall l v, get_object req pk s = Ret l -> l_status l = STATUS_MANUAL_REVIEW ->
     validate_status (data_status req) = Valid v ->
     exists l', update_status req pk s =
       (Ret (StatusOk (status_str (l_status l'))),
        mkDb (applicants s) (map (fun r => if l_id r =? l_id l then l' else r) (loans s)) (now s)) /\
     l_id l' = l_id l /\ l_amount l' = l_amount l /\ l_risk_score l' = l_risk_score l /\
     l_applicant l' = l_applicant l /\ l_external_reference l' = l_external_reference l /\
     l_created_at l' = l_created_at l /\ l_updated_at l' = now s /\
     l_status l' = match v with Some c => c | None => l_status l end) /\
  (forall l, find (fun r => l_id r =? pk) (loans s) = Some l ->
     get_object (plain_patch (data_status req)) pk s = Ret l).
Proof.
  rewrite update_status_eq. repeat split.
  - intro Hd. rewrite (get_object_invalid _ _ _ Hd). reflexivity.
  - intros Hd H. rewrite (get_object_absent _ _ _ Hd H). reflexivity.
  - intros ->. reflexivity.
  - intros l -> Hne. destruct (status_eqb (l_status l) STATUS_MANUAL_REVIEW) eqn:E.
    + apply status_eqb_true in E. contradiction.
    + reflexivity.
  - intros l -> -> ->. reflexivity.
  - intros l v -> Hmr ->. exists (patched_row s v l). rewrite Hmr.
    cbn [negb status_eqb status_str String.eqb Ascii.eqb Bool.eqb]. repeat split.
    destruct v; [reflexivity | exact Hmr].
  - intros l H. apply get_object_plain, H.
Qed.

Lemma find_replace_row (pk : Z) (ls : list LoanApplication) (l l' : LoanApplication) :
  find (fun r => l_id r =? pk) ls = Some l -> l_id l' = l_id l ->
  find (fun r => l_id r =? pk) (map (fun r => if l_id r =? l_id l then l' else r) ls) = Some l'.
Proof.
  intros Hf Hid. pose proof (find_some _ _ Hf) as [_ Hl]. apply Z.eqb_eq in Hl. subst pk.
  induction ls as [|r ls IH]; simpl in *; [discriminate|].
  destruct (l_id r =? l_id l) eqn:E; simpl.
  - rewrite Hid, Z.eqb_refl. reflexivity.
  - rewrite E. apply IH, Hf.
Qed.

Lemma validate_choice (c : status) : validate_status (Some (status_str c)) = Valid (Some c).
Proof. destruct c; reflexivity. Qed.

Lemma update_manual_review (s : db) (pk : Z) (l : LoanApplication) (c : status) :
  find (fun r => l_id r =? pk) (loans s) = Some l -> l_status l = STATUS_MANUAL_REVIEW ->
  update_status (plain_patch (Some (status_str c))) pk s =
    (Ret (StatusOk (status_str c)),
     mkDb (applicants s)
          (map (fun r => if l_id r =? l_id l then patched_row s (Some c) l else r) (loans s))
          (now s)).
Proof.
  intros Hf Hmr. rewrite update_status_eq, (get_object_plain _ _ _ _ Hf), Hmr.
  cbn [negb status_eqb status_str String.eqb Ascii.eqb Bool.eqb].
  unfold plain_patch. cbn [data_status]. rewrite validate_choice. reflexivity.
Qed.

(** Claim C10. For an application in manual review, a PATCH without query
    parameters accepts each of the four declared statuses (pending,
    approved, rejected, manual_review) and answers 200 with it; and setting
    manual_review again keeps the application updatable: any number [n] of
    successive such PATCH requests all succeed. *)
Theorem manual_review_accepts_every_choice (s : db) (pk : Z) (l : LoanApplication)
  (Hf : find (fun r => l_id r =? pk) (loans s) = Some l)
  (Hmr : l_status l = STATUS_MANUAL_REVIEW) :
  (forall c, In c STATUS_CHOICES ->
     fst (update_status (plain_patch (Some (status_str c))) pk s) = Ret (StatusOk (status_str c))) /\
  (forall n, fst (patch_n n "manual_review" pk s) = repeat (Ret (StatusOk "manual_review")) n).
Proof.
  split.
  - intros c _. rewrite (update_manual_review s pk l c Hf Hmr). reflexivity.
  - intro n. revert s l Hf Hmr. induction n as [|n IH]; intros s l Hf Hmr; [reflexivity|].
    cbn [patch_n].
    pose proof (update_manual_review s pk l STATUS_MANUAL_REVIEW Hf Hmr) as Hu.
    cbn [status_str] in Hu. rewrite Hu.
    destruct (patch_n n "manual_review" pk _) as [rs s2] eqn:Hp. simpl.
    f_equal. change rs with (fst (rs, s2)). rewrite <- Hp.
    apply (IH _ (patched_row s (Some STATUS_MANUAL_REVIEW) l)); [|reflexivity].
    apply find_replace_row; [exact Hf | reflexivity].
Qed.

Lemma manual_review_accepts_every_choice_witness :
  find (fun r => l_id r =? 1) (loans mr_db) = Some mr_loan /\
  l_status mr_loan = STATUS_MANUAL_REVIEW /\
  fst (patch_n 3 "manual_review" 1 mr_db) = repeat (Ret (StatusOk "manual_review")) 3.
Proof.
  split; [reflexivity|]. split; [reflexivity|].
  exact (proj2 (manual_review_accepts_every_choice mr_db 1 mr_loan eq_refl eq_refl) 3%nat).
Defined.

(** Claim C2, as the code has it. In live mode, once [float(loan_amount)]
    succeeds, the fallback value 50 is returned exactly when the request
    fails at the network layer (timeout, connection error), when the
    response has a 4xx or 5xx status ([raise_for_status]), or when its body
    is not JSON. Any other response is subscripted with ['score']: a JSON
    object yields its [score] field, or raises [KeyError] when it has none;
    a JSON array, null, string, number or boolean raises [TypeError]; both
    errors reach the caller. An amount too large for a float raises
    [OverflowError], which also reaches the caller. *)
Theorem live_score_fallback_cases (cfg : settings) (http : http_outcome)
  (d : applicant_data) (amt : Z)
  (Hlive : mock_mode cfg = false) :
  ((exists f, float_of_int amt = Ret f) ->
   get_risk_score cfg http d amt =
     match http with
     | NetTimeout | NetConnectionError => Ret 50
     | HttpResponse code body =>
         if raises_for_status code then Ret 50
         else match body with
              | None => Ret 50
              | Some (JObject obj) =>
                  match lookup "score" obj with Some sc => Ret sc | None => Raise KeyError end
              | Some (JArray | JNull | JString _ | JNumber | JBool _) => Raise TypeError
              end
     end) /\
  (float_of_int amt = Raise OverflowError -> get_risk_score cfg http d amt = Raise OverflowError).
Proof.
  unfold get_risk_score, _call_external_api. rewrite Hlive. split.
  - intros [f Hf]. rewrite Hf. cbn [py_bind].
    destruct http as [| |code [[obj| | | | |]|]]; try reflexivity.
    all: destruct (raises_for_status code); reflexivity.
  - intros ->. reflexivity.
Qed.

Lemma live_score_fallback_cases_witness :
  mock_mode live_settings = false /\
  get_risk_score live_settings NetTimeout (mkData "Ann" "new@x.com" "555") 5000 = Ret 50.
Proof.
  split; [reflexivity|].
  exact (proj1 (live_score_fallback_cases live_settings NetTimeout (mkData "Ann" "new@x.com" "555")
                  5000 eq_refl) (ex_intro _ _ eq_refl)).
Defined.

Lemma u32_nonneg x : 0 <= u32 x.
Proof. unfold u32, mask32. apply Z.land_nonneg. right. lia. Qed.

Lemma lxor_nonneg a b : 0 <= a -> 0 <= b -> 0 <= Z.lxor a b.
Proof. intros Ha Hb. apply Z.lxor_nonneg. tauto. Qed.

Lemma nthZ_nonneg l i : words_nonneg l -> 0 <= nthZ l i.
Proof.
  unfold words_nonneg. revert i. induction l as [|x l IH]; intros [|i] H; simpl; try lia;
    inversion H; subst; auto.
Qed.

Lemma set_nth_nonneg l i v : words_nonneg l -> 0 <= v -> words_nonneg (set_nth l i v).
Proof.
  unfold words_nonneg. revert i. induction l as [|x l IH]; intros [|i] H Hv; simpl;
    inversion H; subst; constructor; auto.
Qed.

Lemma init_genrand_from_nonneg p i fuel : words_nonneg (MT.init_genrand_from p i fuel).
Proof.
  revert p i. induction fuel as [|fuel IH]; intros p i; simpl; constructor;
    [apply u32_nonneg | apply IH].
Qed.

Lemma init_genrand_nonneg s : words_nonneg (MT.init_genrand s).
Proof. constructor; [apply u32_nonneg | apply init_genrand_from_nonneg]. Qed.

Lemma init_by_array_1_nonneg key k mt i j :
  words_nonneg mt -> words_nonneg (fst (MT.init_by_array_1 key k mt i j)).
Proof.
  revert mt i j. induction k as [|k IH]; intros mt i j H; cbn [MT.init_by_array_1]; [exact H|].
  destruct (Nat.leb MT.N (S i)); apply IH;
    repeat apply set_nth_nonneg; auto using u32_nonneg, nthZ_nonneg, set_nth_nonneg.
Qed.

Lemma init_by_array_2_nonneg k mt i :
  words_nonneg mt -> words_nonneg (MT.init_by_array_2 k mt i).
Proof.
  revert mt i. induction k as [|k IH]; intros mt i H; cbn [MT.init_by_array_2]; [exact H|].
  destruct (Nat.leb MT.N (S i)); apply IH;
    repeat apply set_nth_nonneg; auto using u32_nonneg, nthZ_nonneg, set_nth_nonneg.
Qed.

Lemma init_by_array_nonneg key : words_nonneg (MT.init_by_array key).
Proof.
  unfold MT.init_by_array.
  pose proof (init_by_array_1_nonneg key (Nat.max MT.N (List.length key))
                (MT.init_genrand 19650218) 1 0 (init_genrand_nonneg _)) as H.
  destruct (MT.init_by_array_1 _ _ _ _ _) as [mt i]. simpl in H.
  apply set_nth_nonneg; [apply init_by_array_2_nonneg, H | lia].
Qed.

Lemma twist_word_nonneg mt kk : words_nonneg mt -> words_nonneg (MT.twist_word mt kk).
Proof.
  intro H. unfold MT.twist_word. apply set_nth_nonneg; [exact H|].
  apply lxor_nonneg; [apply nthZ_nonneg, H|]. apply lxor_nonneg.
  - apply Z.shiftr_nonneg, Z.lor_nonneg. split; apply Z.land_nonneg; right; lia.
  - destruct (Z.odd _); lia.
Qed.

Lemma twist_nonneg mt : words_nonneg mt -> words_nonneg (MT.twist mt).
Proof.
  unfold MT.twist. generalize (seq 0 MT.N). intro ks. revert mt.
  induction ks as [|k ks IH]; intros mt H; simpl; [exact H|].
  apply IH, twist_word_nonneg, H.
Qed.

Lemma temper_nonneg y : 0 <= y -> 0 <= MT.temper y.
Proof.
  intro H. unfold MT.temper.
  assert (Hl : forall a b, 0 <= b -> 0 <= Z.land a b)
    by (intros a b Hb; apply Z.land_nonneg; right; exact Hb).
  repeat first [ apply lxor_nonneg | apply Z.shiftr_nonneg | apply Hl; lia | exact H ].
Qed.

Lemma genrand_uint32_nonneg st :
  words_nonneg (MT.mt st) ->
  0 <= fst (MT.genrand_uint32 st) /\ words_nonneg (MT.mt (snd (MT.genrand_uint32 st))).
Proof.
  intro H. unfold MT.genrand_uint32.
  destruct (Nat.leb MT.N (MT.mti st)); cbn [fst snd MT.mt MT.mti];
    (split; [apply temper_nonneg, nthZ_nonneg|]); auto using twist_nonneg.
Qed.

Lemma randbelow_loop_range fuel n k st r st' :
  words_nonneg (MT.mt st) -> MT.randbelow_loop fuel n k st = Ret (r, st') -> 0 <= r < n.
Proof.
  revert st. induction fuel as [|fuel IH]; intros st H E; cbn [MT.randbelow_loop] in E;
    [discriminate|].
  unfold MT.getrandbits in E. pose proof (genrand_uint32_nonneg st H) as [H1 H2].
  destruct (MT.genrand_uint32 st) as [w st1]. cbn [fst snd] in H1, H2, E.
  destruct (Z.shiftr w (32 - k) <? n) eqn:L.
  - injection E as <- <-. apply Z.ltb_lt in L. split; [apply Z.shiftr_nonneg, H1 | exact L].
  - exact (IH st1 H2 E).
Qed.

Lemma randint_after_seed_range s a b r : randint_after_seed s a b = Ret r -> a <= r <= b.
Proof.
  unfold randint_after_seed, MT.randint, MT.randbelow.
  destruct (MT.randbelow_loop _ _ _ _) as [[q st']| |] eqn:E; simpl; try discriminate.
  intro Hr. injection Hr as <-. simpl.
  apply randbelow_loop_range in E; [lia|]. apply init_by_array_nonneg.
Qed.

Lemma clamped_bind {A} (m : py A) (k : A -> py Z) :
  (forall a, clamped (k a)) -> clamped (py_bind m k).
Proof. intros Hk sc. destruct m as [a| |]; simpl; [apply Hk|discriminate|discriminate]. Qed.

Lemma mock_score_clamped d amt : clamped (_calculate_mock_score d amt).
Proof.
  unfold _calculate_mock_score.
  repeat (apply clamped_bind; intro).
  intros sc H. injection H as <-. lia.
Qed.

(** Claim C9, as the code has it. The mock score is a function of the
    applicant's name, email and the amount only (the phone is not read;
    the name enters through the two-token factor, so two calls with the
    same email and amount but different names can differ); every score it
    returns is an integer in [0, 100]; and the seeded offset, drawn with
    [random.randint(-12, 12)] after seeding with the first 8 hex digits of
    md5(email + str(amount)), lies in [-12, 12]. *)
Theorem mock_score_properties :
  (forall d1 d2 amt, d_name d1 = d_name d2 -> d_email d1 = d_email d2 ->
     _calculate_mock_score d1 amt = _calculate_mock_score d2 amt) /\
  (forall d amt sc, _calculate_mock_score d amt = Ret sc -> 0 <= sc <= 100) /\
  (forall email amt r, random_factor email amt = Ret r -> -12 <= r <= 12).
Proof.
  split; [|split].
  - intros [n1 e1 p1] [n2 e2 p2] amt Hn He. simpl in Hn, He. subst. reflexivity.
  - intros d amt. apply mock_score_clamped.
  - intros email amt r. exact (randint_after_seed_range (mock_seed email amt) (-12) 12 r).
Qed.

(* ------------------------------------------------------------------ *)
(** * Further properties of the views *)

(** The in-memory applicant after lines 82-89. *)
Lemma update_applicant_fst data a :
  fst (update_applicant data a) =
  mkApplicant (a_id a)
    (match dict_get "name" data with Some n => n | None => a_name a end)
    (a_email a)
    (match dict_get "phone" data with Some p => p | None => a_phone a end)
    (a_created_at a) (a_updated_at a).
Proof.
  destruct a as [i nm em ph c u]. unfold update_applicant; simpl.
  destruct (dict_get "name" data) as [n|]; destruct (dict_get "phone" data) as [p|]; simpl;
    repeat match goal with
           | |- context [String.eqb ?x ?y] =>
               destruct (String.eqb_spec x y); [subst|]; simpl
           end; reflexivity.
Qed.

Lemma find_applicant_by_email_some email s a :
  find_applicant_by_email email s = Some a -> In a (applicants s) /\ a_email a = email.
Proof.
  unfold find_applicant_by_email. intro H. apply find_some in H as [Hin He].
  split; [exact Hin|]. apply String.eqb_eq, He.
Qed.

(** A successful run of steps 2-6: the row it appends, the applicant it
    references (stored in the new state, with the request's email) and
    the score the service returned for that applicant's stored data. *)
Lemma create_try_row ev data email amt s r s' :
  create_try ev data email amt s = (Ret r, s') ->
  exists l a rs, r = Created l /\
    l = mkLoan (next_id (map l_id (loans s))) (a_id a) amt (Some rs) (decide rs) None
               (now s) (now s) /\
    loans s' = loans s ++ [l] /\ now s' = now s /\
    In a (applicants s') /\ a_email a = email /\
    get_risk_score (e_settings ev) (e_http ev) (mkData (a_name a) (a_email a) (a_phone a)) amt
      = Ret rs.
Proof.
  intro H. pose proof (create_try_success _ _ _ _ _ _ _ H) as (l & Hr & Hn & Hls & Hid & Ham & _ & Happ).
  unfold create_try in H.
  inv_bind H p s0 Hm. destruct p as [applicant created].
  apply get_or_create_ret in Hm.
  inv_bind H applicant' s1 Hm0.
  assert (Hup : In applicant' (applicants s') /\ a_email applicant' = email /\
                loans s1 = loans s /\ now s1 = now s /\
                l_applicant l = a_id applicant').
  { destruct (find_applicant_by_email email s) as [a0|] eqn:Hf;
      destruct Hm as [Hr0 ->]; inversion Hr0; subst; clear Hr0; destruct Happ as [Has Hla].
    - cbv beta iota in Hm0.
      apply find_applicant_by_email_some in Hf as [Hin He].
      assert (Ha' : applicant' = fst (update_applicant data a0)).
      { destruct (update_applicant data a0) as [a' fields] eqn:Hu. simpl.
        destruct fields as [|f fs].
        - inversion Hm0; reflexivity.
        - inv_bind Hm0 u s2 Hsave. inversion Hm0; reflexivity. }
      assert (Hs1 : loans s1 = loans s /\ now s1 = now s).
      { destruct (update_applicant data a0) as [a' fields] eqn:Hu.
        destruct fields as [|f fs].
        - inversion Hm0; subst; auto.
        - inv_bind Hm0 u s2 Hsave. apply applicant_save_fields_ret in Hsave.
          inversion Hm0; subst; auto. }
      destruct Hs1 as [Hl1 Hn1].
      pose proof (update_applicant_id data a0) as [Hid' Hem'].
      subst applicant'. rewrite Has. repeat split; auto.
      + apply in_map_iff. exists a0. split; [|exact Hin].
        rewrite Z.eqb_refl, upsert_row, update_applicant_fst. reflexivity.
      + rewrite Hem'. exact He.
      + rewrite Hla, Hid'. reflexivity.
    - cbv beta iota in Hm0. inversion Hm0; subst. rewrite Has. repeat split; auto.
      apply in_or_app. right. left. reflexivity. }
  destruct Hup as (Hin & Hem & Hl1 & Hn1 & Hla). clear Hm Hm0 Happ.
  inv_bind H l0 s2 Hm. apply loan_create_ret in Hm as [Hl0 Hs2].
  inv_bind H rs s3 Hm. unfold mlift in Hm. inversion Hm; subst s3. clear Hm.
  inv_bind H l1 s4 Hm. apply loan_save_ret in Hm as [Hl1' Hs4].
  unfold mret in H. injection H as Hr1 Hs'. rewrite <- Hr1 in Hr. injection Hr as El.
  rewrite <- El in Hls, Hla.
  exists l1, applicant', rs. repeat split; auto.
  rewrite Hl1', Hs2, Hl0. unfold saved_loan, set_score_and_status, new_loan. simpl.
  rewrite Hl1, Hn1. reflexivity.
Qed.

(** A higher risk score never gives a more favourable decision. *)
Theorem decide_monotone (s1 s2 : Z) :
  s1 <= s2 -> decision_rank (decide s1) <= decision_rank (decide s2).
Proof.
  intro H. unfold decide.
  destruct (Z.ltb_spec s1 30), (Z.ltb_spec s2 30), (Z.ltb_spec 70 s1), (Z.ltb_spec 70 s2);
    simpl; lia.
Qed.


(** [get_queryset]: a [start_date] or [end_date] that Django cannot parse
    raises [ValidationError]. Otherwise the queryset is computed, and an
    application is in it exactly when it is stored and passes each filter
    given in the query string (an empty [status] is no filter;
    [start_date] and [end_date] are inclusive bounds on [created_at]). A
    [status] that is not one of the four keys, or a [start_date] after the
    [end_date], gives an empty queryset. *)
Theorem get_queryset_filters (req : status_request) (s : db) :
  (dates_parse req = false -> get_queryset req s = Raise ValidationError) /\
  (dates_parse req = true -> exists ls, get_queryset req s = Ret ls /\
    (forall l, In l ls <->
       In l (loans s) /\
       (forall v, q_status req = Some v -> v <> "" -> status_str (l_status l) = v) /\
       (forall d, q_start_date req = Some (DateInstant d) -> d <= l_created_at l) /\
       (forall d, q_end_date req = Some (DateInstant d) -> l_created_at l <= d)) /\
    (forall v, q_status req = Some v -> v <> "" -> status_of_string v = None -> ls = []) /\
    (forall d1 d2, q_start_date req = Some (DateInstant d1) ->
       q_end_date req = Some (DateInstant d2) -> d2 < d1 -> ls = [])).
Proof.
  split.
  - intro Hd. destruct (get_queryset_cases req s) as [[_ E]|[Hd' _]]; [exact E|congruence].
  - intro Hd. destruct (get_queryset_cases req s) as [[Hd' _]|[_ E]]; [congruence|].
    exists (filter (listed req) (loans s)). split; [exact E|].
    assert (Mem : forall l, In l (filter (listed req) (loans s)) <->
       In l (loans s) /\
       (forall v, q_status req = Some v -> v <> "" -> status_str (l_status l) = v) /\
       (forall d, q_start_date req = Some (DateInstant d) -> d <= l_created_at l) /\
       (forall d, q_end_date req = Some (DateInstant d) -> l_created_at l <= d)).
    { intro l. rewrite filter_In. unfold listed.
      destruct req as [qs qd qe ds]; cbn [q_status q_start_date q_end_date].
      rewrite !andb_true_iff.
      split.
      - intros (Hin & (H1 & H2) & H3). split; [exact Hin|]. split; [|split].
        + intros v -> Hne.
          destruct (String.eqb_spec v ""); [contradiction|]. apply String.eqb_eq, H1.
        + intros d ->. apply Z.leb_le, H2.
        + intros d ->. apply Z.leb_le, H3.
      - intros (Hin & H1 & H2 & H3). split; [exact Hin|]. split; [split|].
        + destruct qs as [v|]; [|reflexivity].
          destruct (String.eqb_spec v ""); [reflexivity|].
          apply String.eqb_eq, H1; auto.
        + destruct qd as [[d|]|]; [apply Z.leb_le, H2; reflexivity|reflexivity|reflexivity].
        + destruct qe as [[d|]|]; [apply Z.leb_le, H3; reflexivity|reflexivity|reflexivity]. }
    split; [exact Mem|split].
    + intros v Hq Hne Hnone.
      destruct (filter (listed req) (loans s)) as [|l ls] eqn:Eq; [reflexivity|exfalso].
      assert (Hl : In l (l :: ls)) by (left; reflexivity).
      apply Mem in Hl as (_ & H1 & _). specialize (H1 v Hq Hne).
      rewrite <- H1 in Hnone. destruct (l_status l); discriminate.
    + intros d1 d2 H1 H2 Hlt.
      destruct (filter (listed req) (loans s)) as [|l ls] eqn:Eq; [reflexivity|exfalso].
      assert (Hl : In l (l :: ls)) by (left; reflexivity).
      apply Mem in Hl as (_ & _ & Hd1 & Hd2).
      specialize (Hd1 d1 H1). specialize (Hd2 d2 H2). lia.
Qed.

Lemma nodup_map_inj {T} (f : T -> Z) (ls : list T) x y :
  NoDup (map f ls) -> In x ls -> In y ls -> f x = f y -> x = y.
Proof.
  induction ls as [|z ls IH]; simpl; [tauto|].
  intros Hnd Hx Hy E. inversion Hnd as [|? ? Hnin Hnd']; subst.
  destruct Hx as [<-|Hx], Hy as [<-|Hy]; auto.
  - exfalso. apply Hnin. rewrite E. apply in_map, Hy.
  - exfalso. apply Hnin. rewrite <- E. apply in_map, Hx.
Qed.

Lemma in_map_replace (k : Z) (y : LoanApplication) (ls : list LoanApplication) r :
  In r (map (fun x => if l_id x =? k then y else x) ls) -> l_id r = k -> r = y.
Proof.
  intros H E. apply in_map_iff in H as [x [Hx _]].
  destruct (Z.eqb_spec (l_id x) k); [congruence|]. subst r. contradiction.
Qed.

(** [update_status] on a database whose application ids are distinct (they
    are primary keys): whatever it answers, it writes no applicant, adds
    or removes no application, keeps every application's id, applicant,
    amount, risk score, external reference and creation time, leaves
    every application with another id as it was, and does not move the
    clock. *)
Theorem update_status_frame (req : status_request) (pk : Z) (s : db)
  (Hids : NoDup (map l_id (loans s))) :
  let s' := snd (update_status req pk s) in
  applicants s' = applicants s /\ now s' = now s /\
  map l_id (loans s') = map l_id (loans s) /\
  map l_applicant (loans s') = map l_applicant (loans s) /\
  map l_amount (loans s') = map l_amount (loans s) /\
  map l_risk_score (loans s') = map l_risk_score (loans s) /\
  map l_external_reference (loans s') = map l_external_reference (loans s) /\
  map l_created_at (loans s') = map l_created_at (loans s) /\
  (forall r, In r (loans s) -> l_id r <> pk -> In r (loans s')).
Proof.
  cbv zeta. rewrite update_status_eq.
  destruct (get_object req pk s) as [l|e|] eqn:G;
    [|destruct e; simpl; repeat split; auto; fail|simpl; repeat split; auto; fail].
  apply get_object_some in G as [Hin Hid].
  destruct (negb _); [simpl; repeat split; auto|].
  destruct (validate_status (data_status req)) as [v|]; [|simpl; repeat split; auto].
  cbn [snd applicants loans now].
  assert (Hf : forall (A : Type) (f : LoanApplication -> A),
             f (patched_row s v l) = f l ->
             map f (map (fun r => if l_id r =? l_id l then patched_row s v l else r) (loans s))
             = map f (loans s)).
  { intros A f Hfl. rewrite map_map. apply map_ext_in. intros r Hr.
    destruct (Z.eqb_spec (l_id r) (l_id l)) as [E|]; [|reflexivity].
    rewrite Hfl. f_equal. symmetry. apply (nodup_map_inj l_id (loans s)); auto. }
  repeat split; try (apply Hf; reflexivity).
  intros r Hr Hne. apply in_map_iff. exists r. split; [|exact Hr].
  rewrite Hid. destruct (Z.eqb_spec (l_id r) pk); [contradiction|reflexivity].
Qed.

(** Decisions taken through [update_status] are final: once an application
    in manual review has been set to another status, no later
    [update_status] on it, with any body and any query parameters, changes
    anything or succeeds: it is answered 404 (when filtered out) or 400,
    or raises [ValidationError] (a 500) when a date parameter cannot be
    parsed. *)
Theorem update_status_decision_final (s : db) (pk : Z) (l : LoanApplication) (c : status)
  (req : status_request)
  (Hf : find (fun r => l_id r =? pk) (loans s) = Some l)
  (Hmr : l_status l = STATUS_MANUAL_REVIEW) (Hc : c <> STATUS_MANUAL_REVIEW) :
  let s1 := snd (update_status (plain_patch (Some (status_str c))) pk s) in
  snd (update_status req pk s1) = s1 /\
  (fst (update_status req pk s1) = Ret StatusNotFound \/
   fst (update_status req pk s1) =
     Ret (StatusBadRequest "Only manual review applications can be updated") \/
   fst (update_status req pk s1) = Raise ValidationError).
Proof.
  cbv zeta. rewrite (update_manual_review s pk l c Hf Hmr). cbn [snd].
  pose proof (find_some _ _ Hf) as [_ Hl]. apply Z.eqb_eq in Hl.
  rewrite update_status_eq.
  destruct (get_object req pk _) as [r|e|] eqn:G.
  - apply get_object_some in G as [Hin Hid]. cbn [loans] in Hin.
    rewrite <- Hl in Hid. rewrite (in_map_replace _ _ _ _ Hin Hid).
    unfold patched_row. cbn [l_status].
    destruct (status_eqb c STATUS_MANUAL_REVIEW) eqn:E.
    + apply status_eqb_true in E. contradiction.
    + cbn [negb fst snd]. split; [reflexivity|]. right; left; reflexivity.
  - apply get_object_raise in G as [-> | ->]; cbn [fst snd]; split; auto.
  - exfalso. exact (get_object_not_stuck _ _ _ G).
Qed.

Lemma create_valid_amount req :
  create_valid req = true ->
  exists z e, r_amount req = Some z /\ z <> 0 /\ dict_get "email" (r_applicant req) = Some e /\
    e <> "" /\ r_applicant req <> [].
Proof.
  unfold create_valid, dict_falsy, amount_falsy, str_falsy.
  destruct (r_applicant req) as [|p d]; [discriminate|].
  destruct (r_amount req) as [z|]; [|discriminate].
  destruct (dict_get "email" (p :: d)) as [e|]; [|rewrite andb_false_r; discriminate].
  intro H. apply andb_true_iff in H as [H1 H2]. apply negb_true_iff in H1, H2.
  exists z, e. repeat split; try discriminate.
  - intro E. subst. discriminate.
  - intro E. subst. discriminate.
Qed.

(** What a successful [create] stores: the appended row and the applicant
    it references. *)
Lemma create_success_row ev req s l s' :
  create ev req s = (Ret (Created l), s') ->
  loans s' = loans s ++ [l] /\ now s' = now s /\
  (forall r, In r (loans s) -> l_id r < l_id l) /\
  r_amount req = Some (l_amount l) /\
  l_external_reference l = None /\ l_created_at l = now s /\ l_updated_at l = now s /\
  exists a rs, In a (applicants s') /\ a_id a = l_applicant l /\
    dict_get "email" (r_applicant req) = Some (a_email a) /\
    l_risk_score l = Some rs /\ l_status l = decide rs /\
    get_risk_score (e_settings ev) (e_http ev) (mkData (a_name a) (a_email a) (a_phone a))
      (l_amount l) = Ret rs.
Proof.
  intro H. apply create_success in H as [Hv H].
  apply create_valid_amount in Hv as (z & e & Ha & _ & He & _).
  unfold create_steps in H. rewrite Ha in H. unfold dict_get_default in H. rewrite He in H.
  apply create_try_row in H as (l' & a & rs & Hr & Hl & Hls & Hn & Hin & Hem & Hsc).
  injection Hr as <-. rewrite Hl in *. cbn [l_id l_amount l_applicant l_risk_score l_status
    l_external_reference l_created_at l_updated_at].
  repeat split; auto.
  - intros r Hr. apply next_id_gt, in_map, Hr.
  - exists a, rs. rewrite <- Hem in He. repeat split; auto.
Qed.


Lemma live_outage_score cfg http d amt rs :
  mock_mode cfg = false ->
  match http with
  | NetTimeout | NetConnectionError => True
  | HttpResponse code body => raises_for_status code = true \/ body = None
  end ->
  get_risk_score cfg http d amt = Ret rs -> rs = 50.
Proof.
  intros Hlive Hnet. unfold get_risk_score, _call_external_api. rewrite Hlive.
  destruct (float_of_int amt) as [f|e|]; cbn [py_bind].
  - destruct http as [| |code body]; cbn [is_request_exception _calculate_fallback_score];
      try (intro E; injection E; auto; fail).
    destruct (raises_for_status code) eqn:Rc;
      [cbn [is_request_exception _calculate_fallback_score]; intro E; injection E; auto|].
    destruct Hnet as [Hc|Hb]; [congruence|subst body].
    cbn [is_request_exception _calculate_fallback_score]. intro E; injection E; auto.
  - destruct (is_request_exception e); cbn [_calculate_fallback_score]; intro E;
      [injection E; auto | discriminate].
  - intro E; discriminate.
Qed.

(** In live mode, when the scoring service cannot be reached (timeout,
    connection error) or answers with a 4xx or 5xx status or a body that
    is not JSON, every application [create] stores gets the fallback score
    50 and so goes to manual review. *)
Theorem create_live_outage_manual_review (ev : env) (req : create_request) (s s' : db)
  (l : LoanApplication)
  (Hlive : mock_mode (e_settings ev) = false)
  (Hnet : match e_http ev with
          | NetTimeout | NetConnectionError => True
          | HttpResponse code body => raises_for_status code = true \/ body = None
          end)
  (H : create ev req s = (Ret (Created l), s')) :
  l_risk_score l = Some 50 /\ l_status l = STATUS_MANUAL_REVIEW.
Proof.
  apply create_success_row in H as (_ & _ & _ & _ & _ & _ & _ & a & rs & _ & _ & _ & Hr & Hs & Hg).
  apply (live_outage_score _ _ _ _ _ Hlive Hnet) in Hg. subst rs.
  rewrite Hr, Hs. split; reflexivity.
Qed.

Lemma nodup_snoc {T} (xs : list T) (y : T) :
  NoDup xs -> ~ In y xs -> NoDup (xs ++ [y]).
Proof.
  induction xs as [|x xs IH]; simpl; intros Hnd Hy.
  - constructor; [intros []|constructor].
  - inversion Hnd; subst. constructor.
    + rewrite in_app_iff. simpl. intros [H|[H|[]]]; [contradiction|]. apply Hy. auto.
    + apply IH; auto.
Qed.

Lemma next_id_fresh (ids : list Z) : ~ In (next_id ids) ids.
Proof. intro H. apply next_id_gt in H. lia. Qed.

Lemma map_write_fields_id {B} (f : Applicant -> B) (k : Z) fields inst (rows : list Applicant) :
  (forall row, f (write_fields fields inst row) = f row) ->
  map f (map (fun row => if a_id row =? k then write_fields fields inst row else row) rows)
  = map f rows.
Proof.
  intro Hf. rewrite map_map. apply map_ext. intro row. destruct (_ =? _); auto.
Qed.

Lemma create_steps_invariants ev req s r s' :
  db_invariants s -> create_steps ev req s = (Ret r, s') -> db_invariants s'.
Proof.
  intros (Hl & Hi & He & Hfk) H. unfold create_steps in H.
  pose proof H as H'.
  apply create_try_success in H as (l & Hr & _ & Hls & Hid & _ & _ & Happ).
  apply create_try_row in H' as (l' & a & rs & Hr' & Hl' & _ & _ & Hin & _ & _).
  rewrite Hr in Hr'. injection Hr' as <-.
  assert (Hnew : l_applicant l = a_id a) by (rewrite Hl'; reflexivity).
  split; [|split; [|split]].
  - rewrite Hls, map_app. cbn [map]. apply nodup_snoc; [exact Hl|].
    rewrite Hid. apply next_id_fresh.
  - destruct (find_applicant_by_email _ s) as [a0|] eqn:Hf; destruct Happ as [Has _];
      rewrite Has.
    + rewrite (map_write_fields_id a_id) by reflexivity. exact Hi.
    + rewrite map_app. cbn [map]. apply nodup_snoc; [exact Hi|]. apply next_id_fresh.
  - destruct (find_applicant_by_email _ s) as [a0|] eqn:Hf; destruct Happ as [Has _];
      rewrite Has.
    + rewrite (map_write_fields_id a_email) by reflexivity. exact He.
    + rewrite map_app. cbn [map]. apply nodup_snoc; [exact He|].
      intro Hm. apply in_map_iff in Hm as [x [Ex Hx]].
      unfold find_applicant_by_email in Hf. pose proof (find_none _ _ Hf x Hx) as Hx'.
      cbv beta in Hx'. cbn [a_email new_applicant] in Ex. rewrite Ex, String.eqb_refl in Hx'.
      discriminate.
  - intros r0 Hr0. rewrite Hls in Hr0. apply in_app_iff in Hr0 as [Hr0|[<-|[]]].
    + destruct (Hfk r0 Hr0) as [b [Hb Hbid]].
      destruct (find_applicant_by_email _ s) as [a0|] eqn:Hf; destruct Happ as [Has _];
        rewrite Has.
      * exists (if a_id b =? a_id a0
                then write_fields (snd (update_applicant (r_applicant req) a0))
                                  (fst (update_applicant (r_applicant req) a0)) b
                else b).
        split; [apply in_map_iff; exists b; auto|].
        destruct (_ =? _); exact Hbid.
      * exists b. split; [apply in_or_app; left; exact Hb | exact Hbid].
    + exists a. split; [exact Hin | symmetry; exact Hnew].
Qed.

(** [create] keeps the database's integrity, whatever it answers: distinct
    application ids, distinct applicant ids, distinct applicant emails
    (one applicant per email), and every application referencing a stored
    applicant. *)
Theorem create_keeps_invariants (ev : env) (req : create_request) (s : db)
  (Hinv : db_invariants s) : db_invariants (snd (create ev req s)).
Proof.
  rewrite create_eq. destruct (create_valid req); [|exact Hinv].
  destruct (create_steps ev req s) as [[r|e|] s'] eqn:E; try exact Hinv.
  exact (create_steps_invariants ev req s r s' Hinv E).
Qed.

(** [update_status] keeps the same integrity, whatever it answers. *)
Theorem update_status_keeps_invariants (req : status_request) (pk : Z) (s : db)
  (Hinv : db_invariants s) : db_invariants (snd (update_status req pk s)).
Proof.
  rewrite update_status_eq.
  destruct (get_object req pk s) as [l|e|] eqn:G; [|destruct e; exact Hinv|exact Hinv].
  apply get_object_some in G as [Hin _].
  destruct (negb _); [exact Hinv|].
  destruct (validate_status (data_status req)) as [v|]; [|exact Hinv].
  destruct Hinv as (Hl & Hi & He & Hfk). unfold db_invariants. cbn [snd loans applicants].
  split; [|split; [exact Hi|split; [exact He|]]].
  - rewrite map_map.
    replace (map (fun x => l_id (if l_id x =? l_id l then patched_row s v l else x)) (loans s))
      with (map l_id (loans s)); [exact Hl|].
    apply map_ext. intro x. destruct (Z.eqb_spec (l_id x) (l_id l)); auto.
  - intros r Hr. apply in_map_iff in Hr as [x [Ex Hx]].
    destruct (l_id x =? l_id l); subst r.
    + destruct (Hfk l Hin) as [a [Ha Haid]]. exists a. split; [exact Ha|exact Haid].
    + exact (Hfk x Hx).
Qed.

(** A resubmission for a stored applicant whose name and phone, when the
    request gives them, equal the stored ones writes nothing to the
    applicant table ([update_fields] stays empty, so [save] is not
    called); the new application references that applicant. *)
Theorem create_same_details_no_write (ev : env) (req : create_request) (s s' : db)
  (l : LoanApplication) (a0 : Applicant)
  (He : dict_get "email" (r_applicant req) = Some (a_email a0))
  (Hf : find_applicant_by_email (a_email a0) s = Some a0)
  (Hn : match dict_get "name" (r_applicant req) with Some n => n = a_name a0 | None => True end)
  (Hp : match dict_get "phone" (r_applicant req) with Some p => p = a_phone a0 | None => True end)
  (H : create ev req s = (Ret (Created l), s')) :
  applicants s' = applicants s /\ l_applicant l = a_id a0.
Proof.
  apply create_success in H as [Hv H].
  unfold create_steps, dict_get_default in H. rewrite He in H.
  apply create_try_success in H as (l' & Hr & _ & _ & _ & _ & _ & Happ).
  injection Hr as <-. rewrite Hf in Happ. destruct Happ as [Has Hla].
  split; [|exact Hla].
  rewrite Has, update_fields_eq.
  replace (match dict_get "name" (r_applicant req) with
           | Some n => if String.eqb n (a_name a0) then [] else [F_name] | None => [] end)
    with (@nil applicant_field)
    by (destruct (dict_get "name" (r_applicant req)); [subst; rewrite String.eqb_refl|]; reflexivity).
  replace (match dict_get "phone" (r_applicant req) with
           | Some p => if String.eqb p (a_phone a0) then [] else [F_phone] | None => [] end)
    with (@nil applicant_field)
    by (destruct (dict_get "phone" (r_applicant req)); [subst; rewrite String.eqb_refl|]; reflexivity).
  cbn [app]. rewrite <- (map_id (applicants s)) at 2. apply map_ext. intro row.
  rewrite write_fields_nil. destruct (_ =? _); reflexivity.
Qed.

Lemma summary_eq s :
  summary s =
  [("total_applications", VInt (Z.of_nat (List.length (loans s))));
   ("approved_applications", VInt (count_status STATUS_APPROVED (loans s)));
   ("rejected_applications", VInt (count_status STATUS_REJECTED (loans s)));
   ("pending_applications", VInt (count_status STATUS_PENDING (loans s)));
   ("manual_review_applications", VInt (count_status STATUS_MANUAL_REVIEW (loans s)));
   ("approval_rate", VNum (if 0 <? Z.of_nat (List.length (loans s))
                           then round2 (Qmult (Qmake (count_status STATUS_APPROVED (loans s))
                                                     (Z.to_pos (Z.of_nat (List.length (loans s)))))
                                              (100 # 1))
                           else 0%Q));
   ("average_loan_amount", VNum (match loans s with
                                 | [] => 0%Q
                                 | _ => Qmake (fold_right Z.add 0 (map l_amount (loans s)))
                                              (Z.to_pos (Z.of_nat (List.length (loans s))))
                                 end))].
Proof. reflexivity. Qed.

Lemma count_status_partition (ls : list LoanApplication) :
  count_status STATUS_APPROVED ls + count_status STATUS_REJECTED ls +
  count_status STATUS_PENDING ls + count_status STATUS_MANUAL_REVIEW ls =
  Z.of_nat (List.length ls).
Proof.
  unfold count_status. induction ls as [|l ls IH]; [reflexivity|].
  cbn [filter List.length]. destruct (l_status l); cbv beta;
    repeat match goal with
    | |- context [status_eqb ?a ?b] =>
        let v := eval vm_compute in (status_eqb a b) in change (status_eqb a b) with v
    end; cbn [List.length]; lia.
Qed.

Lemma count_status_le (c : status) (ls : list LoanApplication) :
  0 <= count_status c ls <= Z.of_nat (List.length ls).
Proof.
  unfold count_status. induction ls as [|l ls IH]; [cbn; lia|].
  cbn [filter List.length]. destruct (status_eqb (l_status l) c); cbn [List.length]; lia.
Qed.

Lemma round2_proper (q q' : Q) : Qeq q q' -> round2 q = round2 q'.
Proof.
  intro Hq. unfold round2.
  assert (Hx : Qeq (Qmult q (100 # 1)) (Qmult q' (100 # 1))) by (rewrite Hq; reflexivity).
  rewrite (Qfloor_comp _ _ Hx).
  set (f := Qfloor (Qmult q' (100 # 1))).
  assert (Hr : Qeq (Qminus (Qmult q (100 # 1)) (inject_Z f))
                   (Qminus (Qmult q' (100 # 1)) (inject_Z f))) by (rewrite Hx; reflexivity).
  set (r := Qminus (Qmult q (100 # 1)) (inject_Z f)) in *.
  set (r' := Qminus (Qmult q' (100 # 1)) (inject_Z f)) in *.
  destruct (Qlt_le_dec (1 # 2) r) as [H1|H1]; destruct (Qlt_le_dec (1 # 2) r') as [H2|H2];
    try reflexivity.
  - rewrite Hr in H1. exfalso. exact (Qlt_not_le _ _ H1 H2).
  - rewrite <- Hr in H2. exfalso. exact (Qlt_not_le _ _ H2 H1).
  - destruct (Qeq_bool r (1 # 2)) eqn:E1; destruct (Qeq_bool r' (1 # 2)) eqn:E2; try reflexivity.
    + apply Qeq_bool_iff in E1. apply Qeq_bool_neq in E2. exfalso. apply E2. rewrite <- Hr. exact E1.
    + apply Qeq_bool_iff in E2. apply Qeq_bool_neq in E1. exfalso. apply E1. rewrite Hr. exact E2.
Qed.

Lemma round2_range (q : Q) : Qle 0 q -> Qle q 100 -> Qle 0 (round2 q) /\ Qle (round2 q) 100.
Proof.
  intros H0 H100. unfold round2.
  set (x := Qmult q (100 # 1)).
  assert (Hx0 : Qle 0 x) by (unfold x; apply Qmult_le_0_compat; [exact H0|discriminate]).
  assert (Hx1 : Qle x (inject_Z 10000)).
  { unfold x. apply (Qle_trans _ (Qmult 100 (100 # 1))); [|discriminate].
    apply Qmult_le_compat_r; [exact H100|discriminate]. }
  set (f := Qfloor x).
  assert (Hfl : Qle (inject_Z f) x) by apply Qfloor_le.
  assert (Hfu : Qlt x (inject_Z (f + 1))) by apply Qlt_floor.
  assert (Hf0 : (0 <= f)%Z).
  { assert (Qlt (inject_Z 0) (inject_Z (f + 1))) by exact (Qle_lt_trans _ _ _ Hx0 Hfu).
    rewrite <- Zlt_Qlt in H. lia. }
  assert (Hf1 : (f <= 10000)%Z).
  { rewrite Zle_Qle. exact (Qle_trans _ _ _ Hfl Hx1). }
  set (r := Qminus x (inject_Z f)).
  assert (Hup : Qlt 0 r -> (f < 10000)%Z).
  { intro Hr. rewrite Zlt_Qlt. apply (Qlt_le_trans _ x); [|exact Hx1].
    unfold r, Qminus in Hr. apply Qlt_minus_iff in Hr. exact Hr. }
  assert (Hn : forall n : Z, (0 <= n <= 10000)%Z -> Qle 0 (Qmake n 100) /\ Qle (Qmake n 100) 100).
  { intros n Hn. unfold Qle; cbn [Qnum Qden]. lia. }
  apply Hn.
  destruct (Qlt_le_dec (1 # 2) r) as [H1|H1].
  - assert (Qlt 0 r) by (apply (Qlt_trans _ (1 # 2)); [reflexivity|exact H1]). specialize (Hup H). lia.
  - destruct (Qeq_bool r (1 # 2)) eqn:E; [|lia].
    apply Qeq_bool_iff in E. assert (Qlt 0 r) by (rewrite E; reflexivity). specialize (Hup H).
    destruct (Z.odd f); lia.
Qed.

Lemma round2_0 : round2 0 = Qmake 0 100.
Proof. vm_compute. reflexivity. Qed.

Lemma round2_100 : round2 100 = Qmake 10000 100.
Proof. vm_compute. reflexivity. Qed.

Lemma pos_of_length {T} (xs : list T) :
  xs <> [] -> Z.pos (Z.to_pos (Z.of_nat (List.length xs))) = Z.of_nat (List.length xs).
Proof. intro H. destruct xs; [contradiction|]. apply Z2Pos.id. cbn [List.length]. lia. Qed.

Lemma count_status_all (c : status) (ls : list LoanApplication) :
  (forall l, In l ls -> l_status l = c) -> count_status c ls = Z.of_nat (List.length ls).
Proof.
  unfold count_status. induction ls as [|l ls IH]; intro H; [reflexivity|].
  cbn [filter List.length]. rewrite (H l (or_introl eq_refl)).
  replace (status_eqb c c) with true by (destruct c; reflexivity).
  cbn [List.length]. specialize (IH (fun x Hx => H x (or_intror Hx))). lia.
Qed.

(** The response of [summary] carries the status counts and the total in
    the serializer's fields, and the four counts add up to the total: every
    stored application has exactly one of the four statuses. *)
Theorem summary_counts_partition (s : db) :
  exists total approved rejected pending manual,
    value_get "total_applications" (summary s) = Some (VInt total) /\
    value_get "approved_applications" (summary s) = Some (VInt approved) /\
    value_get "rejected_applications" (summary s) = Some (VInt rejected) /\
    value_get "pending_applications" (summary s) = Some (VInt pending) /\
    value_get "manual_review_applications" (summary s) = Some (VInt manual) /\
    total = Z.of_nat (List.length (loans s)) /\
    approved + rejected + pending + manual = total /\
    0 <= approved /\ 0 <= rejected /\ 0 <= pending /\ 0 <= manual.
Proof.
  rewrite summary_eq.
  do 5 eexists. cbn [value_get]. repeat (split; [reflexivity|]).
  split; [apply count_status_partition|].
  repeat split; apply count_status_le.
Qed.

(** The [approval_rate] of [summary] is a percentage between 0 and 100; it
    is 0 when no application is approved (in particular when there is
    none), and 100 when there are applications and all are approved. *)
Theorem summary_approval_rate_range (s : db) :
  exists q, value_get "approval_rate" (summary s) = Some (VNum q) /\
    Qle 0 q /\ Qle q 100 /\
    (count_status STATUS_APPROVED (loans s) = 0 -> Qeq q 0) /\
    (loans s <> [] -> (forall l, In l (loans s) -> l_status l = STATUS_APPROVED) -> Qeq q 100).
Proof.
  rewrite summary_eq. eexists. cbn [value_get]. split; [reflexivity|].
  destruct (loans s) as [|l0 ls] eqn:Hls.
  - cbn. repeat split; try discriminate; try reflexivity. intros H; contradiction H; reflexivity.
  - rewrite <- Hls. assert (Hne : loans s <> []) by (rewrite Hls; discriminate).
    pose proof (pos_of_length _ Hne) as Hp.
    assert (Hlt : (0 <? Z.of_nat (List.length (loans s))) = true) by (rewrite Hls; cbn; lia).
    rewrite Hlt.
    pose proof (count_status_le STATUS_APPROVED (loans s)) as Hc.
    set (a := count_status STATUS_APPROVED (loans s)) in *.
    set (t := Z.of_nat (List.length (loans s))) in *.
    assert (Hq : Qle 0 (Qmult (Qmake a (Z.to_pos t)) (100 # 1)) /\
                 Qle (Qmult (Qmake a (Z.to_pos t)) (100 # 1)) 100).
    { unfold Qle, Qmult; cbn [Qnum Qden]. rewrite Pos2Z.inj_mul, Hp. split; nia. }
    destruct (round2_range _ (proj1 Hq) (proj2 Hq)) as [R0 R1].
    split; [exact R0|]. split; [exact R1|]. split.
    + intro Ha. rewrite (round2_proper _ 0), round2_0; [reflexivity|].
      rewrite Ha. reflexivity.
    + intros _ Hall. rewrite (round2_proper _ 100), round2_100; [reflexivity|].
      assert (Hat : a = t) by exact (count_status_all _ _ Hall).
      rewrite Hat. unfold Qeq, Qmult; cbn [Qnum Qden]. rewrite Pos2Z.inj_mul, Hp. lia.
Qed.

Lemma sum_amount_bounds (lo hi : Z) (ls : list LoanApplication) :
  (forall l, In l ls -> lo <= l_amount l <= hi) ->
  lo * Z.of_nat (List.length ls) <= fold_right Z.add 0 (map l_amount ls) <=
  hi * Z.of_nat (List.length ls).
Proof.
  induction ls as [|l ls IH]; intro H; [cbn; lia|].
  cbn [map fold_right List.length].
  specialize (IH (fun x Hx => H x (or_intror Hx))). pose proof (H l (or_introl eq_refl)).
  lia.
Qed.

(** When there are applications and every amount lies between [lo] and
    [hi], the [average_loan_amount] of [summary] lies between [lo] and
    [hi] too. *)
Theorem summary_average_bounds (s : db) (lo hi : Z)
  (Hne : loans s <> [])
  (Hb : forall l, In l (loans s) -> lo <= l_amount l <= hi) :
  exists q, value_get "average_loan_amount" (summary s) = Some (VNum q) /\
    Qle (inject_Z lo) q /\ Qle q (inject_Z hi).
Proof.
  rewrite summary_eq. eexists. cbn [value_get]. split; [reflexivity|].
  pose proof (pos_of_length _ Hne) as Hp.
  pose proof (sum_amount_bounds lo hi _ Hb) as Hs.
  destruct (loans s) as [|l0 ls] eqn:Hls; [contradiction|]. rewrite <- Hls in *.
  unfold Qle; cbn [Qnum Qden inject_Z]. rewrite Hp. lia.
Qed.


(** With applicant data and a nonzero amount, [create] answers 400 "Email
    is required in applicant data", and writes nothing, when the email is
    missing or empty. *)
Theorem create_rejects_missing_email (ev : env) (req : create_request) (s : db) (z : Z)
  (Hd : r_applicant req <> []) (Ha : r_amount req = Some z) (Hz : z <> 0)
  (He : dict_get "email" (r_applicant req) = None \/ dict_get "email" (r_applicant req) = Some "") :
  create ev req s = (Ret (BadRequest "Email is required in applicant data"), s).
Proof.
  rewrite create_eq.
  assert (Hf : (dict_falsy (r_applicant req) || amount_falsy (r_amount req)) = false).
  { unfold dict_falsy, amount_falsy. rewrite Ha.
    destruct (r_applicant req); [contradiction|]. apply Z.eqb_neq in Hz. exact Hz. }
  assert (Hm : str_falsy (dict_get "email" (r_applicant req)) = true)
    by (unfold str_falsy; destruct He as [ E | E ]; rewrite E; reflexivity).
  unfold create_valid. rewrite Hf, Hm. reflexivity.
Qed.

Lemma db_invariants_mr_db : db_invariants mr_db.
Proof.
  unfold db_invariants, mr_db, mr_loan. cbn [loans applicants map].
  split; [repeat constructor; cbn; tauto|].
  split; [repeat constructor; cbn; tauto|].
  split; [repeat constructor; cbn; tauto|].
  intros l [<-|[]]. eexists. split; [left; reflexivity|reflexivity].
Qed.

Lemma nodup_ids_mr_db : NoDup (map l_id (loans mr_db)).
Proof. exact (proj1 db_invariants_mr_db). Qed.

Lemma decide_monotone_witness :
  20 <= 50 /\ decision_rank (decide 20) <= decision_rank (decide 50).
Proof. split; [discriminate|]. exact (decide_monotone 20 50 ltac:(discriminate)). Defined.

Lemma update_status_frame_witness :
  NoDup (map l_id (loans mr_db)) /\
  map l_amount (loans (snd (update_status (plain_patch (Some "approved")) 1 mr_db))) =
    map l_amount (loans mr_db).
Proof.
  split; [exact nodup_ids_mr_db|].
  exact (proj1 (proj2 (proj2 (proj2 (proj2
           (update_status_frame (plain_patch (Some "approved")) 1 mr_db nodup_ids_mr_db)))))).
Defined.

Lemma update_status_decision_final_witness :
  find (fun r => l_id r =? 1) (loans mr_db) = Some mr_loan /\
  l_status mr_loan = STATUS_MANUAL_REVIEW /\ STATUS_APPROVED <> STATUS_MANUAL_REVIEW /\
  let s1 := snd (update_status (plain_patch (Some (status_str STATUS_APPROVED))) 1 mr_db) in
  snd (update_status (plain_patch (Some "rejected")) 1 s1) = s1 /\
  (fst (update_status (plain_patch (Some "rejected")) 1 s1) = Ret StatusNotFound \/
   fst (update_status (plain_patch (Some "rejected")) 1 s1) =
     Ret (StatusBadRequest "Only manual review applications can be updated") \/
   fst (update_status (plain_patch (Some "rejected")) 1 s1) = Raise ValidationError).
Proof.
  split; [reflexivity|]. split; [reflexivity|]. split; [discriminate|].
  exact (update_status_decision_final mr_db 1 mr_loan STATUS_APPROVED
           (plain_patch (Some "rejected")) eq_refl eq_refl ltac:(discriminate)).
Defined.


Lemma create_live_outage_manual_review_witness :
  mock_mode (e_settings live_env) = false /\
  match live_outage_result with
  | (Ret (Created l), _) => l_risk_score l = Some 50 /\ l_status l = STATUS_MANUAL_REVIEW
  | _ => False
  end.
Proof.
  split; [reflexivity|].
  assert (E : create live_env c6_req (empty_db 1000) = live_outage_result)
    by (vm_compute; reflexivity).
  unfold live_outage_result in *. cbv beta iota.
  exact (create_live_outage_manual_review live_env c6_req _ _ _ eq_refl I E).
Defined.

Lemma create_keeps_invariants_witness :
  db_invariants mr_db /\ db_invariants (snd (create dev_env c6_req mr_db)).
Proof.
  split; [exact db_invariants_mr_db|].
  exact (create_keeps_invariants dev_env c6_req mr_db db_invariants_mr_db).
Defined.

Lemma update_status_keeps_invariants_witness :
  db_invariants mr_db /\
  db_invariants (snd (update_status (plain_patch (Some "approved")) 1 mr_db)).
Proof.
  split; [exact db_invariants_mr_db|].
  exact (update_status_keeps_invariants (plain_patch (Some "approved")) 1 mr_db
           db_invariants_mr_db).
Defined.

Lemma create_same_details_no_write_witness :
  find_applicant_by_email "new@x.com" mr_db =
    Some (mkApplicant 1 "Ann" "new@x.com" "555" 1000 1000) /\
  match same_details_result with
  | (Ret (Created l), s') => applicants s' = applicants mr_db /\ l_applicant l = 1
  | _ => False
  end.
Proof.
  split; [reflexivity|].
  assert (E : create dev_env c8_req1 mr_db = same_details_result)
    by (vm_compute; reflexivity).
  unfold same_details_result in *. cbv beta iota.
  exact (create_same_details_no_write dev_env c8_req1 mr_db _ _
           (mkApplicant 1 "Ann" "new@x.com" "555" 1000 1000) eq_refl eq_refl eq_refl eq_refl E).
Defined.

Lemma summary_average_bounds_witness :
  loans two_loans_db <> [] /\
  (forall l, In l (loans two_loans_db) -> 1000 <= l_amount l <= 3000) /\
  exists q, value_get "average_loan_amount" (summary two_loans_db) = Some (VNum q) /\
    Qle (inject_Z 1000) q /\ Qle q (inject_Z 3000).
Proof.
  assert (Hne : loans two_loans_db <> []) by discriminate.
  assert (Hb : forall l, In l (loans two_loans_db) -> 1000 <= l_amount l <= 3000)
    by (intros l [<-|[<-|[]]]; cbn; split; discriminate).
  split; [exact Hne|]. split; [exact Hb|].
  exact (summary_average_bounds two_loans_db 1000 3000 Hne Hb).
Defined.


Lemma create_rejects_missing_email_witness :
  r_applicant no_email_req <> [] /\ r_amount no_email_req = Some 5000 /\ 5000 <> 0 /\
  dict_get "email" (r_applicant no_email_req) = None /\
  create dev_env no_email_req mr_db =
    (Ret (BadRequest "Email is required in applicant data"), mr_db).
Proof.
  assert (Hd : r_applicant no_email_req <> []) by discriminate.
  assert (Hz : 5000 <> 0) by discriminate.
  split; [exact Hd|]. split; [reflexivity|]. split; [exact Hz|]. split; [reflexivity|].
  exact (create_rejects_missing_email dev_env no_email_req mr_db 5000 Hd eq_refl Hz
           (or_introl eq_refl)).
Defined.
